(** * mcp-project: tool-provider connections and the chat loop

    A shallow embedding of [app/mcp/server.py] (class [MCPServer], class
    [Tool], [initialize_servers]) and of [app/chat/chat.py]
    ([message_history], [get_llm_response]), together with the properties
    of the connection lifecycle, of tool execution with retries and of the
    conversation loop.

    Python objects are records, mutable attributes are threaded through a
    state monad, exceptions are a third kind of result besides a returned
    value and a loop that never ends.  Everything outside the repository
    (the provider process, the MCP client library, the model endpoint,
    [jsonschema], [json]) is an explicit parameter of the model. *)

From Stdlib Require Import String Ascii List ZArith QArith Bool Lia.
Import ListNotations.

Local Open Scope Z_scope.
Local Open Scope string_scope.
Local Open Scope list_scope.

Set Implicit Arguments.
Set Warnings "-register-all".

(* ================================================================== *)
(** * Values, exceptions, results *)
(* ================================================================== *)

(** JSON documents: tool arguments, argument schemas, decoded results.
    Numbers are integers here; nothing below looks inside a number. *)
Inductive json : Type :=
| JNull
| JBool (b : bool)
| JNum (z : Z)
| JStr (s : string)
| JArr (items : list json)
| JObj (fields : list (string * json)).

(** One element of [CallToolResult.content].  Only text items carry a
    [text] attribute. *)
Inductive content_item : Type :=
| TextContent (text : string)
| ImageContent (data mimeType : string).

(** The Python values that flow through [execute_tool] and into the
    [content] of a history message. *)
Inductive value : Type :=
| VNone
| VStr (s : string)
| VJson (j : json)
| VCallToolResult (content : list content_item).

(** Instances of [Exception]. *)
Inductive exn : Type :=
| ValueError (msg : string)
| RuntimeError (msg : string)
| TypeError (msg : string)
| AttributeError (msg : string)
| KeyError (key : string)
| ValidationError (msg : string)
| SchemaError (msg : string)
| OtherError (cls msg : string).

(** [str(e)], as an f-string renders an exception. *)
Definition str_exn (e : exn) : string :=
  match e with
  | ValueError m | RuntimeError m | TypeError m | AttributeError m
  | ValidationError m | SchemaError m | OtherError _ m => m
  | KeyError k => "'" ++ k ++ "'"
  end.

(** What a call into the outside world does: it returns or it raises. *)
Inductive outcome (A : Type) : Type :=
| Returns (a : A)
| Raises (e : exn).
Arguments Returns {A} a.
Arguments Raises {A} e.

(** What a run of modelled code does.  [Diverged] is a loop cut off by
    its fuel. *)
Inductive result (A : Type) : Type :=
| Ok (a : A)
| Raised (e : exn)
| Diverged.
Arguments Ok {A} a.
Arguments Raised {A} e.
Arguments Diverged {A}.

(* ================================================================== *)
(** * The monad: state, exceptions, and a log of observable events *)
(* ================================================================== *)

Section Monad.
Variables E S : Type.

Definition M (A : Type) : Type := S -> result A * S * list E.

Definition ret {A} (a : A) : M A := fun s => (Ok a, s, []).

Definition raise {A} (e : exn) : M A := fun s => (Raised e, s, []).

Definition diverge {A} : M A := fun s => (Diverged, s, []).

Definition bind {A B} (m : M A) (k : A -> M B) : M B :=
  fun s =>
    match m s with
    | (Ok a, s1, t1) => let '(r, s2, t2) := k a s1 in (r, s2, t1 ++ t2)
    | (Raised e, s1, t1) => (Raised e, s1, t1)
    | (Diverged, s1, t1) => (Diverged, s1, t1)
    end.

(** [try: body / except Exception as e: handler e]. *)
Definition try_except {A} (body : M A) (handler : exn -> M A) : M A :=
  fun s =>
    match body s with
    | (Raised e, s1, t1) => let '(r, s2, t2) := handler e s1 in (r, s2, t1 ++ t2)
    | other => other
    end.

Definition get : M S := fun s => (Ok s, s, []).

Definition put (s : S) : M unit := fun _ => (Ok tt, s, []).

Definition emit (e : E) : M unit := fun s => (Ok tt, s, [e]).

(** A call into the outside world. *)
Definition call {A} (o : outcome A) : M A :=
  match o with
  | Returns a => ret a
  | Raises e => raise e
  end.

(** Runs [m] and hands its exception, if any, back as a value. *)
Definition attempt {A} (m : M A) : M (outcome A) :=
  fun s =>
    match m s with
    | (Ok a, s1, t1) => (Ok (Returns a), s1, t1)
    | (Raised e, s1, t1) => (Ok (Raises e), s1, t1)
    | (Diverged, s1, t1) => (Diverged, s1, t1)
    end.

End Monad.

Arguments ret {E S A} a.
Arguments raise {E S A} e.
Arguments diverge {E S A}.
Arguments get {E S}.
Arguments put {E S} s.
Arguments emit {E S} e.
Arguments call {E S A} o.

(** A method run on an object [o] of its own, from code whose state is
    something else; the object comes back with the method's value. *)
Definition with_object {E S O A} (o : O) (m : M E O A) : M E S (A * O) :=
  fun s =>
    match m o with
    | (Ok a, o1, t1) => (Ok (a, o1), s, t1)
    | (Raised e, _, t1) => (Raised e, s, t1)
    | (Diverged, _, t1) => (Diverged, s, t1)
    end.

Declare Scope py_scope.
Delimit Scope py_scope with py.
Notation "x <- m ;; k" := (bind m (fun x => k))
  (at level 100, m at next level, right associativity) : py_scope.
Notation "m ;; k" := (bind m (fun _ => k))
  (at level 100, right associativity) : py_scope.
Local Open Scope py_scope.

Definition outcome_of {E S A} (r : result A * S * list E) : result A := fst (fst r).
Definition state_of {E S A} (r : result A * S * list E) : S := snd (fst r).
Definition events_of {E S A} (r : result A * S * list E) : list E := snd r.

(* ================================================================== *)
(** * class Tool (app/mcp/server.py) *)
(* ================================================================== *)

Module Tool.

Record t : Type := mk {
  name : string;
  description : string;
  input_schema : json
}.

(** What an attribute of a [Tool] instance evaluates to. *)
Inductive attribute : Type :=
| AttrStr (s : string)
| AttrJson (j : json)
| BoundValidateToolCall.

(** [getattr(tool, attr)]: the instance attributes set by [__init__] and
    the one method of the class.  What every object inherits from
    [object] is left out; no code of the repository asks for it. *)
Definition getattr (tool : t) (attr : string) : outcome attribute :=
  if attr =? "name" then Returns (AttrStr (name tool))
  else if attr =? "description" then Returns (AttrStr (description tool))
  else if attr =? "input_schema" then Returns (AttrJson (input_schema tool))
  else if attr =? "validate_tool_call" then Returns BoundValidateToolCall
  else Raises (AttributeError ("'Tool' object has no attribute '" ++ attr ++ "'")).

(** [validate_tool_call]: [jsonschema.validate(arguments, self.input_schema)],
    with [jsonschema.validate] a parameter ([None] when the instance
    conforms, the raised error otherwise). *)
Definition validate_tool_call (jsonschema_validate : json -> json -> option exn)
    (tool : t) (arguments : json) : outcome unit :=
  match jsonschema_validate arguments (input_schema tool) with
  | None => Returns tt
  | Some e => Raises e
  end.

End Tool.

(* ================================================================== *)
(** * The world outside the repository *)
(* ================================================================== *)

(** The two contexts an [MCPServer] acquires on its exit stack. *)
Inductive resource : Type :=
| StdioTransport
| SessionContext.

(** What an [__aexit__] does: it returns (truthy to swallow the exception
    it was handed) or it raises. *)
Inductive exit_outcome : Type :=
| ExitReturns (suppress : bool)
| ExitRaises (e : exn).

(** A tool as the provider lists it. *)
Record RemoteTool : Type := {
  rt_name : string;
  rt_description : string;
  rt_inputSchema : json
}.

(** One item of the iteration over the [list_tools()] response: a tuple
    [(key, value)], or something that is not a tuple. *)
Inductive response_item : Type :=
| TupleItem (key : string) (listed : list RemoteTool)
| NonTupleItem.

(** An [mcp.ClientSession] over the provider's streams.  [call_tool] may
    answer differently each time, so it is indexed by the number of calls
    made before, which the session counts in [call_count]. *)
Record ClientSession : Type := {
  session_aenter : outcome unit;
  session_aexit : option exn -> exit_outcome;
  session_initialize : outcome unit;
  list_tools : outcome (list response_item);
  call_tool : nat -> string -> json -> outcome value;
  call_count : nat
}.

Definition count_call (sess : ClientSession) : ClientSession :=
  {| session_aenter := session_aenter sess;
     session_aexit := session_aexit sess;
     session_initialize := session_initialize sess;
     list_tools := list_tools sess;
     call_tool := call_tool sess;
     call_count := S (call_count sess) |}.

Record StdioServerParameters : Type := {
  command : string;
  args : list string;
  env : option (list (string * string))
}.

(** [stdio_client(server_params)]: entering spawns the process and yields
    the streams, here given as the session that [ClientSession(read, write)]
    builds on them. *)
Record StdioClient : Type := {
  stdio_aenter : outcome ClientSession;
  stdio_aexit : option exn -> exit_outcome
}.

(** One entry of [mcpServers]: a key may be absent; [command] may be
    [null]. *)
Record ServerConfig : Type := {
  cfg_command : option (option string);
  cfg_args : option (list string);
  cfg_env : option (list (string * string))
}.

Record World : Type := {
  which : string -> option string;
  environ : list (string * string);
  stdio_client : StdioServerParameters -> StdioClient;
  jsonschema_validate : json -> json -> option exn;
  json_loads : string -> option json;
  Config : string -> option string -> outcome (option (list (string * ServerConfig)))
}.

(** What the connection code does that can be observed from outside. *)
Inductive event : Type :=
| CleanupCalled (server : string)
| Entered (server : string) (r : resource)
| Exited (server : string) (r : resource)
| SessionInitialize (server : string)
| ListTools (server : string)
| CallTool (server : string) (tool : string) (arguments : json)
| Sleep (delay : Q).

(** [d[key]] *)
Definition getitem {A} (key : string) (field : option A) : outcome A :=
  match field with
  | Some a => Returns a
  | None => Raises (KeyError key)
  end.

Fixpoint dict_set (d : list (string * string)) (k v : string) : list (string * string) :=
  match d with
  | [] => [(k, v)]
  | (k', v') :: rest => if k =? k' then (k', v) :: rest else (k', v') :: dict_set rest k v
  end.

(** [{**base, **over}] *)
Definition dict_merge (base over : list (string * string)) : list (string * string) :=
  fold_left (fun d kv => dict_set d (fst kv) (snd kv)) over base.

(* ================================================================== *)
(** * class MCPServer (app/mcp/server.py) *)
(* ================================================================== *)

Module MCPServer.

(** A registered exit callback of the [AsyncExitStack]. *)
Record exit_callback : Type := {
  cb_resource : resource;
  cb_aexit : option exn -> exit_outcome
}.

(** The attributes set by [__init__].  [exit_stack] is the stack's list
    of callbacks, the most recently entered first; the attribute itself
    is never [None].  The lock is not modelled: runs are sequential, so
    it is free whenever [cleanup] asks for it. *)
Record t : Type := mk {
  name : string;
  config : ServerConfig;
  stdio_context : option unit;
  session : option ClientSession;
  tools : list Tool.t;
  exit_stack : list exit_callback
}.

Definition __init__ (name : string) (config : ServerConfig) : t :=
  mk name config None None [] [].

Definition method (A : Type) : Type := M event t A.

Definition with_session (self : t) (v : option ClientSession) : t :=
  mk (name self) (config self) (stdio_context self) v (tools self) (exit_stack self).

Definition with_stdio_context (self : t) (v : option unit) : t :=
  mk (name self) (config self) v (session self) (tools self) (exit_stack self).

Definition with_tools (self : t) (v : list Tool.t) : t :=
  mk (name self) (config self) (stdio_context self) (session self) v (exit_stack self).

Definition with_exit_stack (self : t) (v : list exit_callback) : t :=
  mk (name self) (config self) (stdio_context self) (session self) (tools self) v.

(** [self.session = v], and the like. *)
Definition set_session (v : option ClientSession) : method unit :=
  self <- get ;; put (with_session self v).

Definition set_stdio_context (v : option unit) : method unit :=
  self <- get ;; put (with_stdio_context self v).

Definition set_tools (v : list Tool.t) : method unit :=
  self <- get ;; put (with_tools self v).

Definition set_exit_stack (v : list exit_callback) : method unit :=
  self <- get ;; put (with_exit_stack self v).

(** ** contextlib.AsyncExitStack *)

(** [enter_async_context(cm)]: [__aenter__] first; only when it returned
    is [__aexit__] pushed. *)
Definition enter_async_context {A} (r : resource) (aenter : outcome A)
    (aexit : option exn -> exit_outcome) : method A :=
  entered <- call aenter ;;
  self <- get ;;
  set_exit_stack ({| cb_resource := r; cb_aexit := aexit |} :: exit_stack self) ;;
  emit (Entered (name self) r) ;;
  ret entered.

(** The callback loop of [__aexit__]: last in, first out; a callback
    that raises replaces the exception in flight, one that returns a
    truthy value clears it. *)
Fixpoint run_exit_callbacks (server : string) (callbacks : list exit_callback)
    (exc : option exn) (suppressed_exc pending_raise : bool)
    : option exn * bool * bool * list event :=
  match callbacks with
  | [] => (exc, suppressed_exc, pending_raise, [])
  | cb :: rest =>
      let '(exc1, suppressed1, pending1) :=
        match cb_aexit cb exc with
        | ExitReturns true => (None, true, false)
        | ExitReturns false => (exc, suppressed_exc, pending_raise)
        | ExitRaises new_exc => (Some new_exc, suppressed_exc, true)
        end in
      let '(exc2, suppressed2, pending2, t) :=
        run_exit_callbacks server rest exc1 suppressed1 pending1 in
      (exc2, suppressed2, pending2, Exited server (cb_resource cb) :: t)
  end.

(** [exit_stack.__aexit__] with the exception it receives, if any: it
    empties the stack, then raises the exception left in flight by the
    callbacks, or tells whether the one received was swallowed. *)
Definition exit_stack_aexit (received : option exn) : method bool :=
  fun self =>
    let '(exc, suppressed_exc, pending_raise, t) :=
      run_exit_callbacks (name self) (exit_stack self) received false false in
    let self' := with_exit_stack self [] in
    if pending_raise then
      match exc with
      | Some e => (Raised e, self', t)
      | None => (Raised (TypeError "exceptions must derive from BaseException"), self', t)
      end
    else
      (Ok (match received with Some _ => suppressed_exc | None => false end), self', t).

(** [exit_stack.aclose()] *)
Definition exit_stack_aclose : method unit :=
  _ <- exit_stack_aexit None ;;
  ret tt.

(** [async with self.exit_stack: body] *)
Definition async_with_exit_stack (body : method unit) : method unit :=
  finished <- attempt body ;;
  match finished with
  | Returns _ =>
      _ <- exit_stack_aexit None ;;
      ret tt
  | Raises e =>
      swallowed <- exit_stack_aexit (Some e) ;;
      if swallowed then ret tt else raise e
  end.

(** ** cleanup *)

Definition cleanup : method unit :=
  self <- get ;;
  emit (CleanupCalled (name self)) ;;
  try_except
    (exit_stack_aclose ;;
     set_session None ;;
     set_stdio_context None)
    (fun e => ret tt).

(** ** __update_tools *)

Definition listed_tools (item : response_item) : list Tool.t :=
  match item with
  | TupleItem key listed =>
      if key =? "tools"
      then map (fun tool => Tool.mk (rt_name tool) (rt_description tool) (rt_inputSchema tool)) listed
      else []
  | NonTupleItem => []
  end.

Definition __update_tools : method unit :=
  self <- get ;;
  match session self with
  | None => raise (RuntimeError ("Server " ++ name self ++ " not initialized"))
  | Some sess =>
      try_except
        (emit (ListTools (name self)) ;;
         tools_response <- call (list_tools sess) ;;
         set_tools (flat_map listed_tools tools_response))
        (fun e => raise e)
  end.

(** ** initialize *)

(** The statements of [initialize] before its [try]: the executable is
    resolved and the launch parameters are built.  Nothing is acquired
    yet. *)
Definition server_parameters (w : World) (config : ServerConfig)
    : outcome StdioServerParameters :=
  match getitem "command" (cfg_command config) with
  | Raises e => Raises e
  | Returns configured =>
      let command :=
        match configured with
        | Some c => if c =? "npx" then which w "npx" else Some c
        | None => None
        end in
      match command with
      | None => Raises (ValueError "The command must be a valid string and cannot be None.")
      | Some command =>
          match getitem "args" (cfg_args config) with
          | Raises e => Raises e
          | Returns args =>
              Returns {| command := command;
                         args := args;
                         env := match cfg_env config with
                                | Some (kv :: more) => Some (dict_merge (environ w) (kv :: more))
                                | _ => None
                                end |}
          end
      end
  end.

Definition initialize (w : World) : method unit :=
  self <- get ;;
  server_params <- call (server_parameters w (config self)) ;;
  try_except
    (let client := stdio_client w server_params in
     sess <- enter_async_context StdioTransport (stdio_aenter client) (stdio_aexit client) ;;
     _ <- enter_async_context SessionContext (session_aenter sess) (session_aexit sess) ;;
     emit (SessionInitialize (name self)) ;;
     call (session_initialize sess) ;;
     set_session (Some sess))
    (fun e => cleanup ;; raise e) ;;
  __update_tools.

(** ** execute_tool *)

(** The extraction of the content from the provider's response: the text
    of the first content item, decoded when it is JSON; a response with
    no [content] attribute or an empty one is returned as it is. *)
Definition extract_content (w : World) (result : value) : outcome value :=
  match result with
  | VCallToolResult (first :: _) =>
      match first with
      | TextContent content =>
          match json_loads w content with
          | Some decoded => Returns (VJson decoded)
          | None => Returns (VStr content)
          end
      | ImageContent _ _ =>
          Raises (AttributeError "'ImageContent' object has no attribute 'text'")
      end
  | _ => Returns result
  end.

(** [await self.session.call_tool(tool_name, arguments)] *)
Definition session_call_tool (tool_name : string) (arguments : json) : method value :=
  self <- get ;;
  match session self with
  | None => raise (AttributeError "'NoneType' object has no attribute 'call_tool'")
  | Some sess =>
      set_session (Some (count_call sess)) ;;
      emit (CallTool (name self) tool_name arguments) ;;
      call (call_tool sess (call_count sess) tool_name arguments)
  end.

(** The loop [while attempt < retries].  Each pass that comes back to
    the loop test has raised [attempt] by one, so [retries - attempt]
    passes are enough fuel. *)
Fixpoint retry_loop (w : World) (fuel : nat) (tool_name : string) (arguments : json)
    (retries : Z) (delay : Q) (attempt : Z) : method value :=
  if (attempt <? retries)%Z then
    match fuel with
    | O => diverge
    | S fuel' =>
        try_except
          (result <- session_call_tool tool_name arguments ;;
           call (extract_content w result))
          (fun e =>
             let attempt := (attempt + 1)%Z in
             if (attempt <? retries)%Z then
               emit (Sleep delay) ;;
               retry_loop w fuel' tool_name arguments retries delay attempt
             else raise e)
    end
  else ret VNone.

Definition execute_tool (w : World) (tool_name : string) (arguments : json)
    (retries : Z) (delay : Q) : method value :=
  self <- get ;;
  match session self with
  | None => raise (RuntimeError ("Server " ++ name self ++ " not initialized"))
  | Some _ =>
      match find (fun t => Tool.name t =? tool_name) (tools self) with
      | None =>
          raise (ValueError ("Tool " ++ tool_name ++ " not found in server "
                               ++ name self ++ " tools."))
      | Some tool =>
          call (Tool.validate_tool_call (jsonschema_validate w) tool arguments) ;;
          retry_loop w (Z.to_nat retries) tool_name arguments retries delay 0
      end
  end.

End MCPServer.

(* ================================================================== *)
(** * initialize_servers (app/mcp/server.py) *)
(* ================================================================== *)

(** The loop over [mcpServers]; [servers] is the list built so far. *)
Fixpoint initialize_each (w : World) (items : list (string * ServerConfig))
    (servers : list MCPServer.t) : M event unit (list MCPServer.t) :=
  match items with
  | [] => ret servers
  | (server_name, server_config) :: rest =>
      if server_name =? "" then initialize_each w rest servers
      else
        servers <-
          try_except
            (done <- with_object (MCPServer.__init__ server_name server_config)
                       (MCPServer.async_with_exit_stack (MCPServer.initialize w)) ;;
             ret (servers ++ [snd done]))
            (fun e => ret servers) ;;
        initialize_each w rest servers
  end.

Definition initialize_servers (w : World) (config_path : string) (env_path : option string)
    : M event unit (list MCPServer.t) :=
  config <- call (Config w config_path env_path) ;;
  initialize_each w (match config with Some items => items | None => [] end) [].

(* ================================================================== *)
(** * app/llm/schemas.py *)
(* ================================================================== *)

Module ToolCall.

Record t : Type := mk {
  name : string;
  arguments : json
}.

End ToolCall.

Module LLMResponse.

Record t : Type := mk {
  role : string;
  content : string;
  tool_calls : option (list ToolCall.t)
}.

End LLMResponse.

(* ================================================================== *)
(** * app/chat/chat.py *)
(* ================================================================== *)

Module Chat.

(** An entry of the history: [{"role": ..., "content": ...}]. *)
Record message : Type := {
  role : string;
  content : value
}.

(** [LLMClient.get_response(messages, tools)].  The endpoint may answer
    the same request differently each time, so the answer is indexed by
    the number of requests served before. *)
Definition LLMClient : Type :=
  nat -> list message -> option (list Tool.t) -> outcome LLMResponse.t.

(** The state of the process that the chat code reads and writes: the
    module-level variable [message_history], and the number of requests
    the model endpoint has served. *)
Record process : Type := {
  message_history : list message;
  llm_requests : nat
}.

(** What the model endpoint is sent. *)
Inductive chat_event : Type :=
| LLMRequest (messages : list message).

Definition chat (A : Type) : Type := M chat_event process A.

Definition initialize_message_history (system_prompt : string) : chat unit :=
  p <- get ;;
  put {| message_history := [{| role := "system"; content := VStr system_prompt |}];
         llm_requests := llm_requests p |}.

(** [message_history.append(m)] *)
Definition append (m : message) : chat unit :=
  p <- get ;;
  put {| message_history := message_history p ++ [m];
         llm_requests := llm_requests p |}.

(** [await llm_client.get_response(messages=message_history, tools=tools)] *)
Definition get_response (llm_client : LLMClient) (tools : option (list Tool.t))
    : chat LLMResponse.t :=
  p <- get ;;
  put {| message_history := message_history p;
         llm_requests := S (llm_requests p) |} ;;
  emit (LLMRequest (message_history p)) ;;
  call (llm_client (llm_requests p) (message_history p) tools).

Definition type_name (a : Tool.attribute) : string :=
  match a with
  | Tool.AttrStr _ => "str"
  | Tool.AttrJson JNull => "NoneType"
  | Tool.AttrJson (JBool _) => "bool"
  | Tool.AttrJson (JNum _) => "int"
  | Tool.AttrJson (JStr _) => "str"
  | Tool.AttrJson (JArr _) => "list"
  | Tool.AttrJson (JObj _) => "dict"
  | Tool.BoundValidateToolCall => "method"
  end.

(** [await tool.execute_tool(arguments)]: the attribute is looked up on
    the [Tool] instance, called, and the value of the call awaited. *)
Definition await_execute_tool (w : World) (tool : Tool.t) (arguments : json)
    : outcome value :=
  match Tool.getattr tool "execute_tool" with
  | Raises e => Raises e
  | Returns Tool.BoundValidateToolCall =>
      match Tool.validate_tool_call (jsonschema_validate w) tool arguments with
      | Raises e => Raises e
      | Returns _ => Raises (TypeError "object NoneType can't be used in 'await' expression")
      end
  | Returns a => Raises (TypeError ("'" ++ type_name a ++ "' object is not callable"))
  end.

(** [for tool in tools: if tool.name == tool_call.name: ...]; the loop
    has no [break], so its [else] branch, which only logs, always runs. *)
Fixpoint for_tool_in_tools (w : World) (tools : list Tool.t) (tool_call : ToolCall.t)
    : chat unit :=
  match tools with
  | [] => ret tt
  | tool :: rest =>
      (if Tool.name tool =? ToolCall.name tool_call then
         try_except
           (result <- call (await_execute_tool w tool (ToolCall.arguments tool_call)) ;;
            append {| role := "tool"; content := result |})
           (fun e => append {| role := "tool"; content := VStr ("Error: " ++ str_exn e) |})
       else ret tt) ;;
      for_tool_in_tools w rest tool_call
  end.

(** [for tool_call in llm_response.tool_calls: ...] *)
Fixpoint for_tool_call (w : World) (tools : option (list Tool.t))
    (tool_calls : list ToolCall.t) : chat unit :=
  match tool_calls with
  | [] => ret tt
  | tool_call :: rest =>
      match tools with
      | None => raise (TypeError "'NoneType' object is not iterable")
      | Some tools => for_tool_in_tools w tools tool_call
      end ;;
      for_tool_call w tools rest
  end.

(** [while llm_response.tool_calls: ...], cut off after [fuel] rounds. *)
Fixpoint while_tool_calls (w : World) (fuel : nat) (llm_client : LLMClient)
    (tools : option (list Tool.t)) (llm_response : LLMResponse.t) : chat string :=
  match LLMResponse.tool_calls llm_response with
  | Some (tool_call :: more) =>
      match fuel with
      | O => diverge
      | S fuel' =>
          for_tool_call w tools (tool_call :: more) ;;
          llm_response <- try_except (get_response llm_client tools) (fun e => raise e) ;;
          append {| role := "assistant"; content := VStr (LLMResponse.content llm_response) |} ;;
          while_tool_calls w fuel' llm_client tools llm_response
      end
  | _ => ret (LLMResponse.content llm_response)
  end.

Definition get_llm_response (w : World) (fuel : nat) (llm_client : LLMClient)
    (user_input : string) (tools : option (list Tool.t)) : chat string :=
  append {| role := "user"; content := VStr user_input |} ;;
  llm_response <- try_except (get_response llm_client tools) (fun e => raise e) ;;
  append {| role := "assistant"; content := VStr (LLMResponse.content llm_response) |} ;;
  while_tool_calls w fuel llm_client tools llm_response.

End Chat.

(* ================================================================== *)
(** * Sample worlds, for the examples *)
(* ================================================================== *)

Module Samples.

Fixpoint lookup (key : string) (fields : list (string * json)) : option json :=
  match fields with
  | [] => None
  | (k, v) :: rest => if k =? key then Some v else lookup key rest
  end.

Definition required_keys (schema : json) : list string :=
  match schema with
  | JObj fields =>
      match lookup "required" fields with
      | Some (JArr items) =>
          flat_map (fun item => match item with JStr k => [k] | _ => [] end) items
      | _ => []
      end
  | _ => []
  end.

(** A validator that looks only at the top-level [required] list of the
    schema: one possible behaviour of [jsonschema.validate]. *)
Definition check_required (instance schema : json) : option exn :=
  match instance with
  | JObj fields =>
      match find (fun k => match lookup k fields with Some _ => false | None => true end)
                 (required_keys schema) with
      | Some k => Some (ValidationError ("'" ++ k ++ "' is a required property"))
      | None => None
      end
  | _ => None
  end.

(** A decoder that knows the three JSON literals and nothing else. *)
Definition decode_literal (text : string) : option json :=
  if text =? "null" then Some JNull
  else if text =? "true" then Some (JBool true)
  else if text =? "false" then Some (JBool false)
  else None.

(** A session stub in the manner of [AsyncMock(side_effect=[...])]: the
    n-th call of [call_tool] gives the n-th entry of the script. *)
Definition stub_session (script : list (outcome value)) : ClientSession :=
  {| session_aenter := Returns tt;
     session_aexit := fun _ => ExitReturns false;
     session_initialize := Returns tt;
     list_tools := Returns [TupleItem "meta" []; TupleItem "nextCursor" [];
                            TupleItem "tools" []];
     call_tool := fun n _ _ => nth n script (Raises (OtherError "StopAsyncIteration" ""));
     call_count := 0 |}.

Definition weather_schema : json :=
  JObj [("type", JStr "object");
        ("properties", JObj [("city", JObj [("type", JStr "string")])]);
        ("required", JArr [JStr "city"])].

(** A provider that lists one tool and answers every call with "22C". *)
Definition weather_session : ClientSession :=
  {| session_aenter := Returns tt;
     session_aexit := fun _ => ExitReturns false;
     session_initialize := Returns tt;
     list_tools := Returns [TupleItem "meta" []; TupleItem "nextCursor" [];
                            TupleItem "tools"
                              [{| rt_name := "get_weather";
                                  rt_description := "Current weather of a city";
                                  rt_inputSchema := weather_schema |}]];
     call_tool := fun _ _ _ => Returns (VCallToolResult [TextContent "22C"]);
     call_count := 0 |}.

Definition weather_client : StdioClient :=
  {| stdio_aenter := Returns weather_session;
     stdio_aexit := fun _ => ExitReturns false |}.

(** A process that cannot be spawned. *)
Definition broken_client : StdioClient :=
  {| stdio_aenter := Raises (OtherError "FileNotFoundError" "No such file or directory");
     stdio_aexit := fun _ => ExitReturns false |}.

Definition weather_config : ServerConfig :=
  {| cfg_command := Some (Some "python");
     cfg_args := Some ["weather_server.py"];
     cfg_env := None |}.

Definition broken_config : ServerConfig :=
  {| cfg_command := Some (Some "missing-binary");
     cfg_args := Some [];
     cfg_env := None |}.

Definition npx_config : ServerConfig :=
  {| cfg_command := Some (Some "npx");
     cfg_args := Some ["test-server"];
     cfg_env := Some [("TEST", "value")] |}.

(** A machine without [npx], where [python] starts the weather provider
    and any other command fails to start. *)
Definition world : World :=
  {| which := fun _ => None;
     environ := [("PATH", "/usr/bin")];
     stdio_client := fun params =>
       if command params =? "python" then weather_client else broken_client;
     jsonschema_validate := check_required;
     json_loads := decode_literal;
     Config := fun _ _ =>
       Returns (Some [("broken", broken_config); ("weather", weather_config)]) |}.

(** A provider that starts and shakes hands but fails to list its
    tools. *)
Definition unlisted_session : ClientSession :=
  {| session_aenter := Returns tt;
     session_aexit := fun _ => ExitReturns false;
     session_initialize := Returns tt;
     list_tools := Raises (OtherError "McpError" "Method not found");
     call_tool := fun _ _ _ => Raises (OtherError "McpError" "Method not found");
     call_count := 0 |}.

(** The machine of [world], except that every command starts the
    provider that cannot list its tools. *)
Definition unlisted_world : World :=
  {| which := fun _ => None;
     environ := [("PATH", "/usr/bin")];
     stdio_client := fun _ =>
       {| stdio_aenter := Returns unlisted_session;
          stdio_aexit := fun _ => ExitReturns false |};
     jsonschema_validate := check_required;
     json_loads := decode_literal;
     Config := fun _ _ => Returns (Some [("unlisted", weather_config)]) |}.

(** A provider that answers every call with a picture. *)
Definition chart_session : ClientSession :=
  {| session_aenter := Returns tt;
     session_aexit := fun _ => ExitReturns false;
     session_initialize := Returns tt;
     list_tools := Returns [TupleItem "tools" []];
     call_tool := fun _ _ _ => Returns (VCallToolResult [ImageContent "iVBORw0KGgo=" "image/png"]);
     call_count := 0 |}.

Definition test_tool : Tool.t :=
  Tool.mk "test-tool" "test description"
    (JObj [("type", JStr "object");
           ("properties",
            JObj [("function",
                   JObj [("type", JStr "object");
                         ("properties", JObj [("name", JObj [("type", JStr "string")]);
                                              ("arguments", JObj [("type", JStr "object")])]);
                         ("required", JArr [JStr "name"; JStr "arguments"])])])]).

(** The server of [test_execute_tool_retry]: a mocked session, one tool. *)
Definition test_server (script : list (outcome value)) : MCPServer.t :=
  MCPServer.mk "test" {| cfg_command := Some (Some "npx"); cfg_args := Some []; cfg_env := None |}
    None (Some (stub_session script)) [test_tool] [].

Definition weather_tool : Tool.t :=
  Tool.mk "get_weather" "Current weather of a city" weather_schema.

(** A model that asks for [get_weather] first and answers afterwards. *)
Definition weather_llm : Chat.LLMClient :=
  fun n _ _ =>
    match n with
    | O => Returns (LLMResponse.mk "assistant" ""
                      (Some [ToolCall.mk "get_weather" (JObj [("city", JStr "Paris")])]))
    | _ => Returns (LLMResponse.mk "assistant" "It is 22C in Paris." None)
    end.

(** A model that answers at once, repeating nothing. *)
Definition plain_llm (answer : string) : Chat.LLMClient :=
  fun _ _ _ => Returns (LLMResponse.mk "assistant" answer None).

Definition fresh_process : Chat.process :=
  {| Chat.message_history :=
       [{| Chat.role := "system";
           Chat.content := VStr "You are a helpful assistant. You can call tools to get information." |}];
     Chat.llm_requests := 0 |}.

End Samples.

(* ================================================================== *)
(** * Observations on runs *)
(* ================================================================== *)

Definition is_call_tool (e : event) : bool :=
  match e with
  | CallTool _ _ _ => true
  | _ => false
  end.

(** How often the provider was asked to run a tool. *)
Definition provider_calls (t : list event) : nat := length (filter is_call_tool t).

Definition is_exited (e : event) : bool :=
  match e with
  | Exited _ _ => true
  | _ => false
  end.

(** The contexts released during a run. *)
Definition releases (t : list event) : list event := filter is_exited t.

(** One pass of the body of the retry loop, made as the [i]-th call of
    the session: the provider call followed by the extraction of the
    content. *)
Definition attempt_outcome (w : World) (sess : ClientSession) (tool_name : string)
    (arguments : json) (i : nat) : outcome value :=
  match call_tool sess i tool_name arguments with
  | Returns response => MCPServer.extract_content w response
  | Raises e => Raises e
  end.

(** The guarded block of [initialize_servers] for one entry of the
    configuration, run on a server of its own. *)
Definition initialize_block (w : World) (server_name : string) (server_config : ServerConfig)
    : result unit * MCPServer.t * list event :=
  MCPServer.async_with_exit_stack (MCPServer.initialize w)
    (MCPServer.__init__ server_name server_config).

(** Whether an entry of the configuration ends up in the list of servers:
    it has a name and its block completes. *)
Definition initializes (w : World) (entry : string * ServerConfig) : bool :=
  if fst entry =? "" then false
  else match outcome_of (initialize_block w (fst entry) (snd entry)) with
       | Ok _ => true
       | _ => false
       end.

Definition mcp_servers (config : option (list (string * ServerConfig)))
    : list (string * ServerConfig) :=
  match config with
  | Some items => items
  | None => []
  end.

(** The state of a server whose [try] block in [initialize] went through:
    the session is set and both contexts are on the exit stack. *)
Definition connected (w : World) (self : MCPServer.t) (params : StdioServerParameters)
    (sess : ClientSession) : MCPServer.t :=
  MCPServer.mk (MCPServer.name self) (MCPServer.config self) (MCPServer.stdio_context self)
    (Some sess) (MCPServer.tools self)
    ({| MCPServer.cb_resource := SessionContext; MCPServer.cb_aexit := session_aexit sess |}
     :: {| MCPServer.cb_resource := StdioTransport;
           MCPServer.cb_aexit := stdio_aexit (stdio_client w params) |}
     :: MCPServer.exit_stack self).

(** What [initialize] does on the way there. *)
Definition connecting (self : MCPServer.t) : list event :=
  [Entered (MCPServer.name self) StdioTransport;
   Entered (MCPServer.name self) SessionContext;
   SessionInitialize (MCPServer.name self);
   ListTools (MCPServer.name self)].

(** What the guarded block of [initialize_servers] does for one entry
    of the configuration; an entry without a name is skipped. *)
Definition block_events (w : World) (entry : string * ServerConfig) : list event :=
  if fst entry =? "" then []
  else events_of (initialize_block w (fst entry) (snd entry)).

(** The server that the block leaves behind. *)
Definition block_server (w : World) (entry : string * ServerConfig) : MCPServer.t :=
  state_of (initialize_block w (fst entry) (snd entry)).

(** The contexts of a server that is connected, as the exit stack
    releases them. *)
Definition disconnecting (server : string) : list event :=
  [Exited server SessionContext; Exited server StdioTransport].

(** The entry that the tool loop of the chat appends when the lookup of
    [execute_tool] on the tool fails. *)
Definition no_execute_tool : Chat.message :=
  {| Chat.role := "tool";
     Chat.content := VStr "Error: 'Tool' object has no attribute 'execute_tool'" |}.

(** The tools of the list that bear the name that a tool call asks for. *)
Definition named_like (tool_call : ToolCall.t) (tools : list Tool.t) : list Tool.t :=
  filter (fun tool => Tool.name tool =? ToolCall.name tool_call) tools.

Definition user_message (text : string) : Chat.message :=
  {| Chat.role := "user"; Chat.content := VStr text |}.

Definition assistant_message (llm_response : LLMResponse.t) : Chat.message :=
  {| Chat.role := "assistant"; Chat.content := VStr (LLMResponse.content llm_response) |}.

(** A piece of chat code that only ever adds to the end of the history. *)
Definition extends {A : Type} (m : Chat.chat A) : Prop :=
  forall p, exists added,
    Chat.message_history (state_of (m p)) = Chat.message_history p ++ added.

(* ================================================================== *)
(** * execute_tool: lookup, validation, retries *)
(* ================================================================== *)

(* ================================================================== *)
(** * Python operations on JSON values *)
(* ================================================================== *)

(** The code reads decoded JSON with [in], [[]], [.get], [.keys()] and
    [for].  What these do depends on the type of the value at hand; the
    wording of the errors is CPython's (3.11). *)
Module Py.

Definition type_name (j : json) : string :=
  match j with
  | JNull => "NoneType"
  | JBool _ => "bool"
  | JNum _ => "int"
  | JStr _ => "str"
  | JArr _ => "list"
  | JObj _ => "dict"
  end.

(** A [dict] has one binding for a key; the first one is read. *)
Fixpoint dict_get (key : string) (fields : list (string * json)) : option json :=
  match fields with
  | [] => None
  | (k, v) :: rest => if k =? key then Some v else dict_get key rest
  end.

Fixpoint is_substring (sub s : string) : bool :=
  match s with
  | EmptyString => String.prefix sub s
  | String _ rest => String.prefix sub s || is_substring sub rest
  end.

Definition is_str (key : string) (j : json) : bool :=
  match j with
  | JStr s => s =? key
  | _ => false
  end.

(** [key in container] *)
Definition contains (key : string) (container : json) : outcome bool :=
  match container with
  | JObj fields => Returns (match dict_get key fields with Some _ => true | None => false end)
  | JArr items => Returns (existsb (is_str key) items)
  | JStr s => Returns (is_substring key s)
  | other => Raises (TypeError ("argument of type '" ++ type_name other ++ "' is not iterable"))
  end.

(** [container[key]], for a [str] key *)
Definition getitem (container : json) (key : string) : outcome json :=
  match container with
  | JObj fields =>
      match dict_get key fields with
      | Some v => Returns v
      | None => Raises (KeyError key)
      end
  | JArr _ => Raises (TypeError "list indices must be integers or slices, not str")
  | JStr _ => Raises (TypeError "string indices must be integers, not 'str'")
  | other => Raises (TypeError ("'" ++ type_name other ++ "' object is not subscriptable"))
  end.

(** [container.get(key, default)] *)
Definition get (container : json) (key : string) (default : json) : outcome json :=
  match container with
  | JObj fields =>
      Returns (match dict_get key fields with Some v => v | None => default end)
  | other =>
      Raises (AttributeError ("'" ++ type_name other ++ "' object has no attribute 'get'"))
  end.

(** [container.keys()] *)
Definition keys (container : json) : outcome (list string) :=
  match container with
  | JObj fields => Returns (map fst fields)
  | other =>
      Raises (AttributeError ("'" ++ type_name other ++ "' object has no attribute 'keys'"))
  end.

Fixpoint characters (s : string) : list json :=
  match s with
  | EmptyString => []
  | String c rest => JStr (String c EmptyString) :: characters rest
  end.

(** What [for item in container] goes through. *)
Definition iterate (container : json) : outcome (list json) :=
  match container with
  | JArr items => Returns items
  | JObj fields => Returns (map (fun kv => JStr (fst kv)) fields)
  | JStr s => Returns (characters s)
  | other => Raises (TypeError ("'" ++ type_name other ++ "' object is not iterable"))
  end.

(** [len(container)] *)
Definition len (container : json) : outcome nat :=
  match container with
  | JArr items => Returns (length items)
  | JObj fields => Returns (length fields)
  | JStr s => Returns (String.length s)
  | other => Raises (TypeError ("object of type '" ++ type_name other ++ "' has no len()"))
  end.

(** Sequencing of steps that return or raise. *)
Definition and_then {A B : Type} (o : outcome A) (k : A -> outcome B) : outcome B :=
  match o with
  | Returns a => k a
  | Raises e => Raises e
  end.

(** A list comprehension over steps that return or raise: the first
    step that raises ends it. *)
Fixpoint for_each {A B : Type} (f : A -> outcome B) (items : list A) : outcome (list B) :=
  match items with
  | [] => Returns []
  | item :: rest =>
      and_then (f item) (fun b => and_then (for_each f rest) (fun bs => Returns (b :: bs)))
  end.

End Py.

(* ================================================================== *)
(** * class Config (app/mcp/config.py) *)
(* ================================================================== *)

Module Config.

(** The files as the class sees them: whether a path exists, what
    [json.load] makes of a file, and what [load_dotenv] adds to the
    environment. *)
Record Files : Type := {
  path_exists : string -> bool;
  json_load : string -> outcome json;
  load_dotenv : string -> list (string * string) -> list (string * string)
}.

Record t : Type := mk {
  config_path : string;
  env_path : option string;
  raw_config : json;
  use_env : bool
}.

(** [os.getenv(name)] *)
Fixpoint getenv (environ : list (string * string)) (name : string) : option string :=
  match environ with
  | [] => None
  | (k, v) :: rest => if k =? name then Some v else getenv rest name
  end.

(** [__init__] with [_load_config]; the state is [os.environ].  The log
    line at the end takes [len(self.raw_config)]. *)
Definition __init__ (files : Files) (config_path : string) (env_path : option string)
    : M event (list (string * string)) t :=
  let env_path :=
    match env_path with
    | Some EmptyString => None
    | other => other
    end in
  use_env <-
    match env_path with
    | Some path =>
        if path_exists files path then
          environ <- get ;;
          put (load_dotenv files path environ) ;;
          ret true
        else ret false
    | None => ret false
    end ;;
  raw_config <- try_except (call (json_load files config_path)) (fun e => raise e) ;;
  _ <- call (Py.len raw_config) ;;
  ret (mk config_path env_path raw_config use_env).

(** The pattern [\${([^}]+)}] tried on the characters after ["${"]: the
    name runs up to the first ["}"]. *)
Fixpoint match_name (s : string) : option string :=
  match s with
  | EmptyString => None
  | String c rest =>
      if Ascii.eqb c "}"%char then Some EmptyString
      else option_map (String c) (match_name rest)
  end.

(** The pattern tried at the start of [s]: the name it captures, which
    has at least one character. *)
Definition match_here (s : string) : option string :=
  match s with
  | String c1 (String c2 rest) =>
      if Ascii.eqb c1 "$"%char && Ascii.eqb c2 "{"%char then
        match match_name rest with
        | Some (String c name) => Some (String c name)
        | _ => None
        end
      else None
  | _ => None
  end.

(** The inner function [replace]: the value of the variable, or the
    whole match when the variable is not set. *)
Definition replace (environ : list (string * string)) (var_name : string) : string :=
  match getenv environ var_name with
  | Some env_value => env_value
  | None => "${" ++ var_name ++ "}"
  end.

(** [re.sub(pattern, replace, value)]: the leftmost match is replaced,
    and the search goes on behind it; [skip] counts the characters of a
    match that are still to be passed over. *)
Fixpoint sub (environ : list (string * string)) (skip : nat) (value : string) : string :=
  match value with
  | EmptyString => EmptyString
  | String c rest =>
      match skip with
      | S k => sub environ k rest
      | O =>
          match match_here value with
          | Some var_name =>
              replace environ var_name ++ sub environ (String.length var_name + 2) rest
          | None => String c (sub environ 0 rest)
          end
      end
  end.

Definition _replace_variables (self : t) (environ : list (string * string))
    (value : string) : string :=
  if use_env self then sub environ 0 value else value.

Fixpoint substitute (self : t) (environ : list (string * string)) (config : json) : json :=
  match config with
  | JObj fields =>
      JObj (map (fun kv => match kv with (k, v) => (k, substitute self environ v) end) fields)
  | JArr items => JArr (map (substitute self environ) items)
  | JStr s => JStr (_replace_variables self environ s)
  | other => other
  end.

Definition _substitute_variables := substitute.

Definition get_server_config (self : t) (environ : list (string * string))
    (server_name : string) : outcome json :=
  Py.and_then (Py.getitem (raw_config self) "mcpServers") (fun servers =>
  Py.and_then (Py.getitem servers server_name) (fun server_config =>
  Returns (_substitute_variables self environ server_config))).

End Config.

(* ================================================================== *)
(** * class OllamaClient (app/llm/ollama.py, app/llm/client.py) *)
(* ================================================================== *)

Module OllamaClient.

(** [ToolCall] and [LLMResponse] as the formatting code fills them: the
    dataclasses take whatever the decoded response holds. *)
Record tool_call : Type := {
  call_name : json;
  call_arguments : json
}.

Record llm_response : Type := {
  response_role : json;
  response_content : json;
  response_tool_calls : option (list tool_call)
}.

Definition _format_tool (tool : Tool.t) : json :=
  JObj [("type", JStr "function");
        ("function", JObj [("name", JStr (Tool.name tool));
                           ("description", JStr (Tool.description tool));
                           ("parameters", Tool.input_schema tool)])].

(** [LLMClient._format_tools] *)
Definition _format_tools (tools : list Tool.t) : list json := map _format_tool tools.

(** The [tools] entry of the request: [self._format_tools(tools) if tools else []]. *)
Definition request_tools (tools : option (list Tool.t)) : list json :=
  match tools with
  | Some (tool :: more) => _format_tools (tool :: more)
  | _ => []
  end.

Definition _format_tool_call (call : json) : outcome tool_call :=
  Py.and_then (Py.contains "function" call) (fun has_function =>
  Py.and_then
    (if has_function then
       Py.and_then (Py.getitem call "function") (fun function =>
       Py.and_then (Py.contains "name" function) (fun has_name =>
       Returns (negb has_name)))
     else Returns true)
    (fun invalid =>
       if invalid then
         Raises (ValueError "Invalid tool call format, missing 'function' or 'name'.")
       else
         Py.and_then (Py.getitem call "function") (fun function =>
         Py.and_then (Py.getitem function "name") (fun name =>
         Py.and_then (Py.getitem call "function") (fun function' =>
         Py.and_then (Py.get function' "arguments" (JObj [])) (fun arguments =>
         Returns {| call_name := name; call_arguments := arguments |})))))).

(** [LLMClient._format_tool_calls] *)
Definition _format_tool_calls (calls : list json) : outcome (list tool_call) :=
  Py.for_each _format_tool_call calls.

Definition _format_response (response : json) : outcome llm_response :=
  Py.and_then (Py.get response "message" (JObj [])) (fun message =>
  Py.and_then (Py.keys message) (fun message_keys =>
  if negb (existsb (String.eqb "role") message_keys) then
    Raises (ValueError "No role in response data, something went wrong.")
  else
    Py.and_then (Py.getitem message "role") (fun role =>
    if negb (Py.is_str "assistant" role) then
      Raises (ValueError "Response role is not 'assistant', something went wrong.")
    else
      Py.and_then (Py.contains "tool_calls" message) (fun has_tool_calls =>
      Py.and_then
        (if has_tool_calls then
           Py.and_then (Py.getitem message "tool_calls") (fun listed =>
           Py.and_then (Py.iterate listed) (fun calls =>
           Py.and_then (Py.for_each _format_tool_call calls) (fun formatted =>
           Returns (Some formatted))))
         else Returns None)
        (fun tool_calls =>
           Py.and_then (Py.getitem message "role") (fun role' =>
           Py.and_then (Py.get message "content" (JStr "")) (fun content =>
           Returns {| response_role := role';
                      response_content := content;
                      response_tool_calls := tool_calls |}))))))).

(** An Ollama message, as the API sends it, for a response of the
    model: the reading that [_format_response] undoes. *)
Definition message_of (content : string) (calls : option (list ToolCall.t)) : json :=
  JObj (("role", JStr "assistant")
        :: ("content", JStr content)
        :: match calls with
           | Some calls =>
               [("tool_calls",
                 JArr (map (fun c =>
                              JObj [("function",
                                     JObj [("name", JStr (ToolCall.name c));
                                           ("arguments", ToolCall.arguments c)])])
                           calls))]
           | None => []
           end).

Definition tool_call_of (c : ToolCall.t) : tool_call :=
  {| call_name := JStr (ToolCall.name c); call_arguments := ToolCall.arguments c |}.

End OllamaClient.

(* ================================================================== *)
(** * app/main.py *)
(* ================================================================== *)

Module Main.

(** The loop of [lifespan] after the [yield]:
    [for server in servers: await server.cleanup()].  The servers come
    back as the loop leaves them. *)
Fixpoint shutdown (servers : list MCPServer.t) : M event unit (list MCPServer.t) :=
  match servers with
  | [] => ret []
  | server :: rest =>
      done <- with_object server MCPServer.cleanup ;;
      others <- shutdown rest ;;
      ret (snd done :: others)
  end.

End Main.

(* ================================================================== *)
(** * Further observations and samples *)
(* ================================================================== *)



(** What [cleanup] does to a server: the exit of every context on its
    stack, the most recently entered first. *)
Definition exits (self : MCPServer.t) : list event :=
  map (fun cb => Exited (MCPServer.name self) (MCPServer.cb_resource cb))
      (MCPServer.exit_stack self).

(** Whether the command of an entry resolves, and to what. *)
Definition resolved_command (w : World) (config : ServerConfig) : option string :=
  match cfg_command config with
  | Some (Some c) => if c =? "npx" then which w "npx" else Some c
  | _ => None
  end.

(** A JSON value with the text of its strings taken out: what is left
    are the types, the keys and the lengths. *)
Fixpoint shape (j : json) : json :=
  match j with
  | JObj fields => JObj (map (fun kv => match kv with (k, v) => (k, shape v) end) fields)
  | JArr items => JArr (map shape items)
  | JStr _ => JStr ""
  | other => other
  end.

(** The variable names that the pattern of [_replace_variables] finds in
    a string, from left to right. *)
Fixpoint references (skip : nat) (value : string) : list string :=
  match value with
  | EmptyString => []
  | String c rest =>
      match skip with
      | S k => references k rest
      | O =>
          match Config.match_here value with
          | Some var_name => var_name :: references (String.length var_name + 2) rest
          | None => references 0 rest
          end
      end
  end.

Fixpoint has_char (c : ascii) (s : string) : bool :=
  match s with
  | EmptyString => false
  | String c' rest => Ascii.eqb c' c || has_char c rest
  end.

(** The history entries that one round of tool calls adds: for every
    call, in order, one failed lookup for every tool of that name. *)
Definition round_entries (tools : list Tool.t) (tool_calls : list ToolCall.t)
    : list Chat.message :=
  flat_map (fun tool_call => map (fun _ => no_execute_tool) (named_like tool_call tools))
           tool_calls.

Definition add_messages (p : Chat.process) (added : list Chat.message) : Chat.process :=
  {| Chat.message_history := Chat.message_history p ++ added;
     Chat.llm_requests := Chat.llm_requests p |}.

Module MoreSamples.

(** A model that asks for a tool every time it is asked. *)
Definition restless_llm : Chat.LLMClient :=
  fun _ _ _ =>
    Returns (LLMResponse.mk "assistant" ""
               (Some [ToolCall.mk "get_weather" (JObj [("city", JStr "Paris")])])).

(** A model endpoint that is down. *)
Definition failing_llm : Chat.LLMClient :=
  fun _ _ _ => Raises (OtherError "ConnectError" "All connection attempts failed").

(** The files of the configuration tests: one server whose arguments
    refer to two variables, and no [.env] file. *)
Definition test_raw_config : json :=
  JObj [("mcpServers",
         JObj [("test-server",
                JObj [("command", JStr "test");
                      ("args", JArr [JStr "${TEST_VAR}"; JStr "${OTHER_VAR}"])])])].

Definition test_files : Config.Files :=
  {| Config.path_exists := fun _ => false;
     Config.json_load := fun path =>
       if path =? "test_config.json" then Returns test_raw_config
       else Raises (OtherError "FileNotFoundError" "No such file or directory");
     Config.load_dotenv := fun _ environ => environ |}.

(** A connected server, as [initialize] leaves it. *)
Definition weather_server : MCPServer.t :=
  state_of (MCPServer.initialize Samples.world
              (MCPServer.__init__ "weather" Samples.weather_config)).

End MoreSamples.

Unset Implicit Arguments.

(** Unfolds the operations of the monad until a run is a plain term. *)
Ltac run_monad :=
  cbv beta iota zeta delta
    [MCPServer.set_session MCPServer.set_stdio_context MCPServer.set_tools
     MCPServer.set_exit_stack MCPServer.enter_async_context
     try_except attempt with_object bind get put emit call ret raise diverge].

Ltac run_monad_in H :=
  cbv beta iota zeta delta
    [MCPServer.set_session MCPServer.set_stdio_context MCPServer.set_tools
     MCPServer.set_exit_stack MCPServer.enter_async_context
     try_except attempt with_object bind get put emit call ret raise diverge] in H.

Ltac run_chat :=
  cbv beta iota zeta delta
    [Chat.append Chat.get_response
     try_except attempt bind get put emit call ret raise diverge].

(** Reads the components off a run that has been computed. *)
Ltac observe :=
  unfold outcome_of, state_of, events_of, provider_calls, releases in *; simpl in *.

Section ExecuteTool.

Variable w : World.
Variables (tool_name : string) (arguments : json) (retries : Z) (delay : Q).

Local Abbreviation loop fuel :=
  (MCPServer.retry_loop w fuel tool_name arguments retries delay).

(** One pass of the loop, with the session in hand. *)
Lemma retry_loop_step fuel attempt self sess :
  MCPServer.session self = Some sess ->
  (attempt < retries)%Z ->
  loop (S fuel) attempt self =
    let self1 := MCPServer.with_session self (Some (count_call sess)) in
    let called := CallTool (MCPServer.name self) tool_name arguments in
    match attempt_outcome w sess tool_name arguments (call_count sess) with
    | Returns v => (Ok v, self1, [called])
    | Raises e =>
        if (attempt + 1 <? retries)%Z then
          let '(r, s, t) := loop fuel (attempt + 1)%Z self1 in
          (r, s, called :: Sleep delay :: t)
        else (Raised e, self1, [called])
    end.
Proof.
  intros Hs Hlt. simpl.
  apply Z.ltb_lt in Hlt. rewrite Hlt.
  unfold MCPServer.session_call_tool, attempt_outcome. run_monad.
  rewrite Hs. run_monad. simpl.
  destruct (call_tool sess (call_count sess) tool_name arguments) as [response | e]; simpl.
  - destruct (MCPServer.extract_content w response) as [v | e]; simpl; [reflexivity |].
    destruct (attempt + 1 <? retries)%Z; [| reflexivity].
    destruct (MCPServer.retry_loop _ _ _ _ _ _ _ _) as [[r s] t]. reflexivity.
  - destruct (attempt + 1 <? retries)%Z; [| reflexivity].
    destruct (MCPServer.retry_loop _ _ _ _ _ _ _ _) as [[r s] t]. reflexivity.
Qed.

(** Counting a call changes nothing but the count. *)
Lemma attempt_outcome_count_call sess i :
  attempt_outcome w (count_call sess) tool_name arguments (call_count (count_call sess) + i) =
  attempt_outcome w sess tool_name arguments (call_count sess + S i).
Proof.
  unfold attempt_outcome. simpl.
  replace (call_count sess + S i)%nat with (S (call_count sess + i)) by lia.
  reflexivity.
Qed.

Lemma retry_loop_done fuel attempt self :
  (retries <= attempt)%Z ->
  loop fuel attempt self = (Ok VNone, self, []).
Proof.
  intros Hge.
  assert (Hf : (attempt <? retries)%Z = false) by (apply Z.ltb_ge; exact Hge).
  destruct fuel; simpl; rewrite Hf; reflexivity.
Qed.

(** The loop never asks the provider more often than it has fuel. *)
Lemma retry_loop_calls_le_fuel fuel :
  forall attempt self, (provider_calls (events_of (loop fuel attempt self)) <= fuel)%nat.
Proof.
  induction fuel as [| fuel IH]; intros attempt self.
  - simpl. destruct (attempt <? retries)%Z; cbv; lia.
  - destruct (Z.ltb_spec attempt retries) as [Hlt | Hge].
    2: { rewrite retry_loop_done by exact Hge. cbv. lia. }
    destruct (MCPServer.session self) as [sess |] eqn:Hs.
    + rewrite (retry_loop_step fuel _ _ _ Hs Hlt). cbv zeta.
      destruct (attempt_outcome _ _ _ _ _); [observe; lia |].
      destruct (attempt + 1 <? retries)%Z; [| observe; lia].
      specialize (IH (attempt + 1)%Z (MCPServer.with_session self (Some (count_call sess)))).
      destruct (loop fuel _ _) as [[r s] t]. observe. lia.
    + simpl. apply Z.ltb_lt in Hlt. rewrite Hlt.
      unfold MCPServer.session_call_tool. run_monad. rewrite Hs. run_monad. simpl.
      destruct (attempt + 1 <? retries)%Z; [| observe; lia].
      specialize (IH (attempt + 1)%Z self).
      destruct (loop fuel _ _) as [[r s] t]. observe. lia.
Qed.

(** The first [k] passes fail and the next one succeeds: its value is
    returned after [k + 1] calls. *)
Lemma retry_loop_first_success k :
  forall fuel attempt self sess v,
    MCPServer.session self = Some sess ->
    (attempt + Z.of_nat k < retries)%Z ->
    (k < fuel)%nat ->
    (forall j, (j < k)%nat ->
       exists e, attempt_outcome w sess tool_name arguments (call_count sess + j) = Raises e) ->
    attempt_outcome w sess tool_name arguments (call_count sess + k) = Returns v ->
    outcome_of (loop fuel attempt self) = Ok v /\
    provider_calls (events_of (loop fuel attempt self)) = S k.
Proof.
  induction k as [| k IH]; intros fuel attempt self sess v Hs Hlt Hfuel Hfail Hok.
  - destruct fuel as [| fuel]; [lia |].
    rewrite (retry_loop_step fuel _ _ _ Hs) by lia. cbv zeta.
    rewrite Nat.add_0_r in Hok. rewrite Hok. split; reflexivity.
  - destruct fuel as [| fuel]; [lia |].
    rewrite (retry_loop_step fuel _ _ _ Hs) by lia. cbv zeta.
    destruct (Hfail 0%nat) as [e He]; [lia |].
    rewrite Nat.add_0_r in He. rewrite He.
    assert (Hnext : (attempt + 1 <? retries)%Z = true) by (apply Z.ltb_lt; lia).
    rewrite Hnext.
    set (self1 := MCPServer.with_session self (Some (count_call sess))).
    destruct (IH fuel (attempt + 1)%Z self1 (count_call sess) v) as [Hout Hcalls].
    + reflexivity.
    + lia.
    + lia.
    + intros j Hj. destruct (Hfail (S j)) as [e' He']; [lia |].
      exists e'. rewrite attempt_outcome_count_call. exact He'.
    + rewrite attempt_outcome_count_call. exact Hok.
    + destruct (loop fuel (attempt + 1)%Z self1) as [[r s] t].
      unfold outcome_of, events_of, provider_calls in *. simpl in *.
      split; [exact Hout | lia].
Qed.

(** All the [m + 1] passes that are left fail: the failure of the last
    one is raised after [m + 1] calls. *)
Lemma retry_loop_all_fail m :
  forall fuel attempt self sess,
    MCPServer.session self = Some sess ->
    (retries - attempt = Z.of_nat (S m))%Z ->
    (m < fuel)%nat ->
    (forall j, (j <= m)%nat ->
       exists e, attempt_outcome w sess tool_name arguments (call_count sess + j) = Raises e) ->
    exists e,
      attempt_outcome w sess tool_name arguments (call_count sess + m) = Raises e /\
      outcome_of (loop fuel attempt self) = Raised e /\
      provider_calls (events_of (loop fuel attempt self)) = S m.
Proof.
  induction m as [| m IH]; intros fuel attempt self sess Hs Hleft Hfuel Hfail.
  - destruct fuel as [| fuel]; [lia |].
    rewrite (retry_loop_step fuel _ _ _ Hs) by lia. cbv zeta.
    destruct (Hfail 0%nat) as [e He]; [lia |]. exists e.
    split; [exact He |].
    rewrite Nat.add_0_r in He. rewrite He.
    assert (Hlast : (attempt + 1 <? retries)%Z = false) by (apply Z.ltb_ge; lia).
    rewrite Hlast. split; reflexivity.
  - destruct fuel as [| fuel]; [lia |].
    rewrite (retry_loop_step fuel _ _ _ Hs) by lia. cbv zeta.
    destruct (Hfail 0%nat) as [e0 He0]; [lia |].
    rewrite Nat.add_0_r in He0. rewrite He0.
    assert (Hnext : (attempt + 1 <? retries)%Z = true) by (apply Z.ltb_lt; lia).
    rewrite Hnext.
    set (self1 := MCPServer.with_session self (Some (count_call sess))).
    destruct (IH fuel (attempt + 1)%Z self1 (count_call sess)) as [e [He [Hout Hcalls]]].
    + reflexivity.
    + lia.
    + lia.
    + intros j Hj. destruct (Hfail (S j)) as [e' He']; [lia |].
      exists e'. rewrite attempt_outcome_count_call. exact He'.
    + exists e. split.
      * rewrite attempt_outcome_count_call in He. exact He.
      * destruct (loop fuel (attempt + 1)%Z self1) as [[r s] t].
        unfold outcome_of, events_of, provider_calls in *. simpl in *.
        split; [exact Hout | lia].
Qed.

(** With a session, a known tool and conforming arguments, [execute_tool]
    is its retry loop, started at attempt 0. *)
Lemma execute_tool_is_loop self sess tool :
  MCPServer.session self = Some sess ->
  find (fun t => Tool.name t =? tool_name) (MCPServer.tools self) = Some tool ->
  jsonschema_validate w arguments (Tool.input_schema tool) = None ->
  MCPServer.execute_tool w tool_name arguments retries delay self =
  loop (Z.to_nat retries) 0%Z self.
Proof.
  intros Hs Hfind Hvalid. unfold MCPServer.execute_tool. run_monad.
  rewrite Hs, Hfind. unfold Tool.validate_tool_call. rewrite Hvalid. simpl.
  destruct (MCPServer.retry_loop _ _ _ _ _ _ _ _) as [[r s] t]. reflexivity.
Qed.

(** The session counts exactly the calls that the run made. *)
Lemma retry_loop_counts fuel :
  forall attempt self sess,
    MCPServer.session self = Some sess ->
    exists sess',
      MCPServer.session (state_of (loop fuel attempt self)) = Some sess' /\
      call_count sess' =
        (call_count sess + provider_calls (events_of (loop fuel attempt self)))%nat.
Proof.
  induction fuel as [| fuel IH]; intros attempt self sess Hs.
  - exists sess. simpl.
    destruct (attempt <? retries)%Z; observe; split; auto with arith.
  - destruct (Z.ltb_spec attempt retries) as [Hlt | Hge].
    2: { rewrite retry_loop_done by exact Hge. exists sess. observe. auto with arith. }
    rewrite (retry_loop_step fuel _ _ _ Hs Hlt). cbv zeta.
    set (self1 := MCPServer.with_session self (Some (count_call sess))).
    destruct (attempt_outcome _ _ _ _ _).
    + exists (count_call sess). observe. split; [reflexivity | lia].
    + destruct (attempt + 1 <? retries)%Z.
      * destruct (IH (attempt + 1)%Z self1 (count_call sess) eq_refl) as [sess' [Hs' Hc]].
        exists sess'. destruct (loop fuel _ _) as [[r s] t]. observe.
        split; [exact Hs' | lia].
      * exists (count_call sess). observe. split; [reflexivity | lia].
Qed.

End ExecuteTool.

(** C4. With a session, a known tool and conforming arguments,
    [execute_tool] with [retries = n >= 1] asks the provider at most [n]
    times, and the session counts those calls.  If the first [k] attempts
    fail and attempt [k + 1 <= n] succeeds, its value is returned after
    exactly [k + 1] calls.  If all [n] attempts fail, the failure of the
    last one is raised after exactly [n] calls.  An attempt is one pass
    of the loop body: the provider call and the extraction of the content
    of its response. *)
Theorem execute_tool_retries :
  forall (w : World) (self : MCPServer.t) (sess : ClientSession) (tool : Tool.t)
         (tool_name : string) (arguments : json) (n : Z) (delay : Q),
    MCPServer.session self = Some sess ->
    find (fun t => Tool.name t =? tool_name) (MCPServer.tools self) = Some tool ->
    jsonschema_validate w arguments (Tool.input_schema tool) = None ->
    (1 <= n)%Z ->
    let run := MCPServer.execute_tool w tool_name arguments n delay self in
    let nth_attempt k :=
      attempt_outcome w sess tool_name arguments (call_count sess + k) in
    ((provider_calls (events_of run) <= Z.to_nat n)%nat /\
     exists sess',
       MCPServer.session (state_of run) = Some sess' /\
       call_count sess' = (call_count sess + provider_calls (events_of run))%nat) /\
    (forall k v,
       (k < Z.to_nat n)%nat ->
       (forall j, (j < k)%nat -> exists e, nth_attempt j = Raises e) ->
       nth_attempt k = Returns v ->
       outcome_of run = Ok v /\ provider_calls (events_of run) = S k) /\
    ((forall j, (j < Z.to_nat n)%nat -> exists e, nth_attempt j = Raises e) ->
     exists e,
       nth_attempt (Z.to_nat n - 1)%nat = Raises e /\
       outcome_of run = Raised e /\
       provider_calls (events_of run) = Z.to_nat n).
Proof.
  intros w self sess tool tool_name arguments n delay Hs Hfind Hvalid Hn run nth_attempt.
  subst run nth_attempt.
  rewrite (execute_tool_is_loop w tool_name arguments n delay self sess tool Hs Hfind Hvalid).
  split; [split |]; [| | split].
  - apply retry_loop_calls_le_fuel.
  - apply retry_loop_counts. exact Hs.
  - intros k v Hk Hfail Hok.
    apply (retry_loop_first_success w tool_name arguments n delay k _ _ self sess v);
      auto; lia.
  - intros Hfail.
    destruct (Z.to_nat n) as [| m] eqn:Hm; [lia |].
    replace (S m - 1)%nat with m by lia.
    apply (retry_loop_all_fail w tool_name arguments n delay m _ _ self sess); auto; try lia.
    intros j Hj. apply Hfail. lia.
Qed.

(** The stub of the repository's retry test: the provider fails once and
    then returns "success"; with [retries = 2] the value is returned and
    the provider has been called exactly twice. *)
Lemma execute_tool_retries_witness :
  let run :=
    MCPServer.execute_tool Samples.world "test-tool" (JObj [("test", JStr "arg")]) 2 (1 # 10)
      (Samples.test_server [Raises (OtherError "Exception" "First failure");
                            Returns (VStr "success")]) in
  outcome_of run = Ok (VStr "success") /\ provider_calls (events_of run) = 2%nat.
Proof.
  refine (proj1 (proj2 (execute_tool_retries Samples.world
            (Samples.test_server [Raises (OtherError "Exception" "First failure");
                                  Returns (VStr "success")])
            (Samples.stub_session [Raises (OtherError "Exception" "First failure");
                                   Returns (VStr "success")])
            Samples.test_tool "test-tool" (JObj [("test", JStr "arg")]) 2 (1 # 10)
            eq_refl eq_refl eq_refl _)) 1%nat (VStr "success") _ _ eq_refl).
  - discriminate.
  - apply Nat.lt_succ_diag_r.
  - intros j Hj. exists (OtherError "Exception" "First failure").
    destruct j as [| j]; [reflexivity |].
    exfalso. exact (Nat.nlt_0_r j (proj2 (Nat.succ_lt_mono j 0) Hj)).
Defined.

(** A response whose first content item is not text makes the pass
    fail at the extraction, after the provider has answered: the call is
    made again, and in the end the [AttributeError] is raised. *)
Lemma execute_tool_retries_on_picture :
  let run :=
    MCPServer.execute_tool Samples.world "get_weather" (JObj [("city", JStr "Paris")]) 2 1
      (MCPServer.mk "charts" Samples.weather_config None (Some Samples.chart_session)
         [Samples.weather_tool] []) in
  outcome_of run = Raised (AttributeError "'ImageContent' object has no attribute 'text'") /\
  provider_calls (events_of run) = 2%nat.
Proof. split; reflexivity. Qed.

(** C5. When the arguments do not conform to the schema of the tool, the
    validation error is raised at once: the provider is never called, no
    retry takes place, and the server is left as it was. *)
Theorem execute_tool_invalid_arguments :
  forall (w : World) (self : MCPServer.t) (sess : ClientSession) (tool : Tool.t)
         (tool_name : string) (arguments : json) (retries : Z) (delay : Q) (e : exn),
    MCPServer.session self = Some sess ->
    find (fun t => Tool.name t =? tool_name) (MCPServer.tools self) = Some tool ->
    jsonschema_validate w arguments (Tool.input_schema tool) = Some e ->
    let run := MCPServer.execute_tool w tool_name arguments retries delay self in
    outcome_of run = Raised e /\
    provider_calls (events_of run) = 0%nat /\
    events_of run = [] /\
    state_of run = self.
Proof.
  intros w self sess tool tool_name arguments retries delay e Hs Hfind Hinvalid run.
  subst run. unfold MCPServer.execute_tool. run_monad.
  rewrite Hs, Hfind. unfold Tool.validate_tool_call. rewrite Hinvalid.
  repeat split.
Qed.

(** The tool of the repository's validation test, called without the
    required field of its schema. *)
Lemma execute_tool_invalid_arguments_witness :
  let run :=
    MCPServer.execute_tool Samples.world "get_weather" (JObj []) 2 1
      (MCPServer.mk "weather" Samples.weather_config None (Some Samples.weather_session)
         [Samples.weather_tool] []) in
  outcome_of run = Raised (ValidationError "'city' is a required property") /\
  provider_calls (events_of run) = 0%nat.
Proof.
  pose proof (execute_tool_invalid_arguments Samples.world
                (MCPServer.mk "weather" Samples.weather_config None
                   (Some Samples.weather_session) [Samples.weather_tool] [])
                Samples.weather_session Samples.weather_tool "get_weather" (JObj []) 2 1
                (ValidationError "'city' is a required property")
                eq_refl eq_refl eq_refl) as H.
  exact (conj (proj1 H) (proj1 (proj2 H))).
Defined.

(** C6. On a server with a session, a tool name that is not in the
    server's catalog fails at once with the "not found" error: no
    provider call, and the server is left as it was. *)
Theorem execute_tool_unknown_tool :
  forall (w : World) (self : MCPServer.t) (sess : ClientSession)
         (tool_name : string) (arguments : json) (retries : Z) (delay : Q),
    MCPServer.session self = Some sess ->
    (forall t, In t (MCPServer.tools self) -> Tool.name t <> tool_name) ->
    let run := MCPServer.execute_tool w tool_name arguments retries delay self in
    outcome_of run =
      Raised (ValueError ("Tool " ++ tool_name ++ " not found in server "
                            ++ MCPServer.name self ++ " tools.")) /\
    provider_calls (events_of run) = 0%nat /\
    events_of run = [] /\
    state_of run = self.
Proof.
  intros w self sess tool_name arguments retries delay Hs Hunknown run.
  assert (Hfind : find (fun t => Tool.name t =? tool_name) (MCPServer.tools self) = None).
  { destruct (find _ _) as [t |] eqn:Hf; [| reflexivity].
    apply find_some in Hf. destruct Hf as [Hin Heq].
    apply String.eqb_eq in Heq. exfalso. exact (Hunknown t Hin Heq). }
  subst run. unfold MCPServer.execute_tool. run_monad.
  rewrite Hs, Hfind. repeat split.
Qed.

Lemma execute_tool_unknown_tool_witness :
  let run :=
    MCPServer.execute_tool Samples.world "get_time" (JObj []) 2 1
      (MCPServer.mk "weather" Samples.weather_config None (Some Samples.weather_session)
         [Samples.weather_tool] []) in
  outcome_of run = Raised (ValueError "Tool get_time not found in server weather tools.") /\
  provider_calls (events_of run) = 0%nat.
Proof.
  assert (Hunknown : forall t, In t [Samples.weather_tool] -> Tool.name t <> "get_time").
  { intros t [Ht | []]. rewrite <- Ht. discriminate. }
  pose proof (execute_tool_unknown_tool Samples.world
                (MCPServer.mk "weather" Samples.weather_config None
                   (Some Samples.weather_session) [Samples.weather_tool] [])
                Samples.weather_session "get_time" (JObj []) 2 1 eq_refl Hunknown) as H.
  exact (conj (proj1 H) (proj1 (proj2 H))).
Defined.

(** C10. With a session, a known tool and conforming arguments, a call
    with [retries <= 0] never enters the loop: no provider call, no
    error, and the value returned is [None]. *)
Theorem execute_tool_no_attempts :
  forall (w : World) (self : MCPServer.t) (sess : ClientSession) (tool : Tool.t)
         (tool_name : string) (arguments : json) (retries : Z) (delay : Q),
    MCPServer.session self = Some sess ->
    find (fun t => Tool.name t =? tool_name) (MCPServer.tools self) = Some tool ->
    jsonschema_validate w arguments (Tool.input_schema tool) = None ->
    (retries <= 0)%Z ->
    let run := MCPServer.execute_tool w tool_name arguments retries delay self in
    outcome_of run = Ok VNone /\
    provider_calls (events_of run) = 0%nat /\
    events_of run = [] /\
    state_of run = self.
Proof.
  intros w self sess tool tool_name arguments retries delay Hs Hfind Hvalid Hle run.
  subst run.
  rewrite (execute_tool_is_loop w tool_name arguments retries delay self sess tool
             Hs Hfind Hvalid).
  rewrite retry_loop_done by exact Hle. repeat split.
Qed.

Lemma execute_tool_no_attempts_witness :
  let run :=
    MCPServer.execute_tool Samples.world "get_weather" (JObj [("city", JStr "Paris")]) 0 1
      (MCPServer.mk "weather" Samples.weather_config None (Some Samples.weather_session)
         [Samples.weather_tool] []) in
  outcome_of run = Ok VNone /\ provider_calls (events_of run) = 0%nat.
Proof.
  assert (Hle : (0 <= 0)%Z) by discriminate.
  pose proof (execute_tool_no_attempts Samples.world
                (MCPServer.mk "weather" Samples.weather_config None
                   (Some Samples.weather_session) [Samples.weather_tool] [])
                Samples.weather_session Samples.weather_tool "get_weather"
                (JObj [("city", JStr "Paris")]) 0 1 eq_refl eq_refl eq_refl Hle) as H.
  exact (conj (proj1 H) (proj1 (proj2 H))).
Defined.

(* ================================================================== *)
(** * cleanup *)
(* ================================================================== *)

Section Cleanup.

(** Whatever the callbacks do, [__aexit__] leaves the stack empty and
    touches nothing else. *)
Lemma exit_stack_aexit_state received self :
  state_of (MCPServer.exit_stack_aexit received self) = MCPServer.with_exit_stack self [].
Proof.
  unfold MCPServer.exit_stack_aexit.
  destruct (MCPServer.run_exit_callbacks _ _ _ _ _) as [[[exc suppressed] pending] t].
  destruct pending; [destruct exc |]; reflexivity.
Qed.

(** On an empty stack there is nothing to call. *)
Lemma exit_stack_aexit_empty received self :
  MCPServer.exit_stack self = [] ->
  MCPServer.exit_stack_aexit received self =
    (Ok (match received with Some _ => false | None => false end),
     MCPServer.with_exit_stack self [], []).
Proof.
  intros Hempty. unfold MCPServer.exit_stack_aexit. rewrite Hempty. simpl.
  destruct received; reflexivity.
Qed.

(** The shape of every run of [cleanup]. *)
Lemma cleanup_run self :
  exists self' t,
    MCPServer.cleanup self = (Ok tt, self', CleanupCalled (MCPServer.name self) :: t) /\
    MCPServer.exit_stack self' = [] /\
    MCPServer.name self' = MCPServer.name self /\
    t = snd (MCPServer.run_exit_callbacks (MCPServer.name self) (MCPServer.exit_stack self)
               None false false).
Proof.
  unfold MCPServer.cleanup, MCPServer.exit_stack_aclose. run_monad.
  unfold MCPServer.exit_stack_aexit.
  destruct (MCPServer.run_exit_callbacks _ _ _ _ _) as [[[exc suppressed] pending] t].
  destruct pending; [destruct exc |]; simpl; eexists; eexists;
    (split; [reflexivity | split; [reflexivity | split; [reflexivity |]]]);
    rewrite ?app_nil_r; reflexivity.
Qed.

End Cleanup.

(** C7. [cleanup] never raises, in whatever state the server is and
    whatever the exit callbacks of its contexts do; it leaves the exit
    stack empty.  A second call does not raise either and releases
    nothing: the only thing it does that can be observed is that it was
    called. *)
Theorem cleanup_never_raises :
  forall self : MCPServer.t,
    let first := MCPServer.cleanup self in
    let second := MCPServer.cleanup (state_of first) in
    outcome_of first = Ok tt /\
    MCPServer.exit_stack (state_of first) = [] /\
    outcome_of second = Ok tt /\
    releases (events_of second) = [] /\
    events_of second = [CleanupCalled (MCPServer.name self)] /\
    MCPServer.exit_stack (state_of second) = [].
Proof.
  intros self first second.
  destruct (cleanup_run self) as [self1 [t1 [Hrun1 [Hstack1 [Hname1 _]]]]].
  destruct (cleanup_run self1) as [self2 [t2 [Hrun2 [Hstack2 [_ Ht2]]]]].
  rewrite Hstack1 in Ht2. simpl in Ht2. subst t2. rewrite Hname1 in Hrun2.
  subst second first. rewrite Hrun1.
  change (state_of (Ok tt, self1, CleanupCalled (MCPServer.name self) :: t1)) with self1.
  rewrite Hrun2. observe. repeat split; auto.
Qed.

(* ================================================================== *)
(** * initialize *)
(* ================================================================== *)

Section Initialize.

Variable w : World.

(** A failure before the [try]: nothing was acquired, nothing is
    cleaned up, the error goes to the caller. *)
Lemma initialize_no_parameters self e :
  MCPServer.server_parameters w (MCPServer.config self) = Raises e ->
  MCPServer.initialize w self = (Raised e, self, []).
Proof.
  intros Hparams. unfold MCPServer.initialize. run_monad. rewrite Hparams. reflexivity.
Qed.

(** The handler of the [try]: [cleanup] and then the same error again. *)
Lemma cleanup_then_raise self e :
  exists self' t,
    (MCPServer.cleanup ;; (raise e : MCPServer.method unit))%py self =
      (Raised e, self', CleanupCalled (MCPServer.name self) :: t) /\
    MCPServer.exit_stack self' = [] /\
    MCPServer.name self' = MCPServer.name self.
Proof.
  destruct (cleanup_run self) as [self' [t [Hrun [Hstack [Hname _]]]]].
  exists self', t. unfold bind. rewrite Hrun. unfold raise. rewrite app_nil_r. auto.
Qed.

(** The process cannot be spawned. *)
Lemma initialize_spawn_fails self params e :
  MCPServer.server_parameters w (MCPServer.config self) = Returns params ->
  stdio_aenter (stdio_client w params) = Raises e ->
  outcome_of (MCPServer.initialize w self) = Raised e /\
  In (CleanupCalled (MCPServer.name self)) (events_of (MCPServer.initialize w self)) /\
  MCPServer.exit_stack (state_of (MCPServer.initialize w self)) = [].
Proof.
  intros Hparams Hspawn. unfold MCPServer.initialize. run_monad. rewrite Hparams. run_monad.
  rewrite Hspawn. run_monad.
  destruct (cleanup_then_raise self e) as [self' [t [Hrun [Hstack _]]]].
  unfold bind in Hrun. unfold raise in Hrun. rewrite Hrun. observe. auto.
Qed.

(** The session context cannot be entered. *)
Lemma initialize_session_enter_fails self params sess e :
  MCPServer.server_parameters w (MCPServer.config self) = Returns params ->
  stdio_aenter (stdio_client w params) = Returns sess ->
  session_aenter sess = Raises e ->
  outcome_of (MCPServer.initialize w self) = Raised e /\
  In (CleanupCalled (MCPServer.name self)) (events_of (MCPServer.initialize w self)) /\
  MCPServer.exit_stack (state_of (MCPServer.initialize w self)) = [].
Proof.
  intros Hparams Hspawn Henter. unfold MCPServer.initialize. run_monad.
  rewrite Hparams. run_monad. rewrite Hspawn. run_monad. rewrite Henter. run_monad.
  match goal with
  | |- context [MCPServer.cleanup ?s] =>
      destruct (cleanup_then_raise s e) as [self' [t [Hrun [Hstack _]]]]
  end.
  run_monad_in Hrun. rewrite Hrun. observe. repeat split; auto 10.
Qed.

(** The handshake fails. *)
Lemma initialize_handshake_fails self params sess e :
  MCPServer.server_parameters w (MCPServer.config self) = Returns params ->
  stdio_aenter (stdio_client w params) = Returns sess ->
  session_aenter sess = Returns tt ->
  session_initialize sess = Raises e ->
  outcome_of (MCPServer.initialize w self) = Raised e /\
  In (CleanupCalled (MCPServer.name self)) (events_of (MCPServer.initialize w self)) /\
  MCPServer.exit_stack (state_of (MCPServer.initialize w self)) = [].
Proof.
  intros Hparams Hspawn Henter Hinit. unfold MCPServer.initialize. run_monad.
  rewrite Hparams. run_monad. rewrite Hspawn. run_monad. rewrite Henter. run_monad.
  rewrite Hinit. run_monad.
  match goal with
  | |- context [MCPServer.cleanup ?s] =>
      destruct (cleanup_then_raise s e) as [self' [t [Hrun [Hstack _]]]]
  end.
  run_monad_in Hrun. rewrite Hrun. observe. repeat split; auto 10.
Qed.

(** The catalog cannot be fetched: the error goes to the caller, with
    the session set and both contexts still on the exit stack. *)
Lemma initialize_catalog_fails self params sess e :
  MCPServer.server_parameters w (MCPServer.config self) = Returns params ->
  stdio_aenter (stdio_client w params) = Returns sess ->
  session_aenter sess = Returns tt ->
  session_initialize sess = Returns tt ->
  list_tools sess = Raises e ->
  MCPServer.initialize w self = (Raised e, connected w self params sess, connecting self).
Proof.
  intros Hparams Hspawn Henter Hinit Hlist. unfold MCPServer.initialize. run_monad.
  rewrite Hparams. run_monad. rewrite Hspawn. run_monad. rewrite Henter. run_monad.
  rewrite Hinit. run_monad. unfold MCPServer.__update_tools. run_monad.
  simpl. rewrite Hlist. reflexivity.
Qed.

(** Every step succeeds. *)
Lemma initialize_succeeds self params sess items :
  MCPServer.server_parameters w (MCPServer.config self) = Returns params ->
  stdio_aenter (stdio_client w params) = Returns sess ->
  session_aenter sess = Returns tt ->
  session_initialize sess = Returns tt ->
  list_tools sess = Returns items ->
  MCPServer.initialize w self =
    (Ok tt,
     MCPServer.with_tools (connected w self params sess) (flat_map MCPServer.listed_tools items),
     connecting self).
Proof.
  intros Hparams Hspawn Henter Hinit Hlist. unfold MCPServer.initialize. run_monad.
  rewrite Hparams. run_monad. rewrite Hspawn. run_monad. rewrite Henter. run_monad.
  rewrite Hinit. run_monad. unfold MCPServer.__update_tools. run_monad.
  simpl. rewrite Hlist. reflexivity.
Qed.

End Initialize.

(** C3, as the code has it.  Whatever step of [initialize] fails, the
    failure reaches the caller.  When the failure lies inside the [try]
    block (the transport context cannot be entered, the session context
    cannot be entered, or the handshake fails), [cleanup] has been called
    before.  When the executable cannot be resolved, the error is raised
    before anything was acquired: no [cleanup], no event, the server as it
    was. *)
Theorem initialize_failure_is_propagated :
  forall (w : World) (self : MCPServer.t),
    let run := MCPServer.initialize w self in
    let cleaned_up := In (CleanupCalled (MCPServer.name self)) (events_of run) in
    (forall e,
       MCPServer.server_parameters w (MCPServer.config self) = Raises e ->
       outcome_of run = Raised e /\ events_of run = [] /\ state_of run = self) /\
    (forall params sess,
       MCPServer.server_parameters w (MCPServer.config self) = Returns params ->
       (forall e,
          stdio_aenter (stdio_client w params) = Raises e ->
          outcome_of run = Raised e /\ cleaned_up) /\
       (stdio_aenter (stdio_client w params) = Returns sess ->
        (forall e,
           session_aenter sess = Raises e ->
           outcome_of run = Raised e /\ cleaned_up) /\
        (session_aenter sess = Returns tt ->
         (forall e,
            session_initialize sess = Raises e ->
            outcome_of run = Raised e /\ cleaned_up) /\
         (session_initialize sess = Returns tt ->
          forall e,
            list_tools sess = Raises e ->
            outcome_of run = Raised e)))).
Proof.
  intros w self run cleaned_up. subst run cleaned_up. split.
  - intros e Hparams. rewrite (initialize_no_parameters w self e Hparams). auto.
  - intros params sess Hparams. split.
    + intros e Hspawn.
      destruct (initialize_spawn_fails w self params e Hparams Hspawn) as [Ho [Hc _]]. auto.
    + intros Hspawn. split.
      * intros e Henter.
        destruct (initialize_session_enter_fails w self params sess e Hparams Hspawn Henter)
          as [Ho [Hc _]]. auto.
      * intros Henter. split.
        -- intros e Hinit.
           destruct (initialize_handshake_fails w self params sess e
                       Hparams Hspawn Henter Hinit) as [Ho [Hc _]]. auto.
        -- intros Hinit e Hlist.
           rewrite (initialize_catalog_fails w self params sess e
                      Hparams Hspawn Henter Hinit Hlist). reflexivity.
Qed.

(** A command that cannot be started: [cleanup] runs, then the error of
    the spawn is raised. *)
Lemma initialize_failure_is_propagated_witness :
  let run := MCPServer.initialize Samples.world
               (MCPServer.__init__ "broken" Samples.broken_config) in
  outcome_of run = Raised (OtherError "FileNotFoundError" "No such file or directory") /\
  In (CleanupCalled "broken") (events_of run).
Proof.
  exact (proj1 (proj2 (initialize_failure_is_propagated Samples.world
                         (MCPServer.__init__ "broken" Samples.broken_config))
                  {| command := "missing-binary"; args := []; env := None |}
                  Samples.weather_session eq_refl)
           (OtherError "FileNotFoundError" "No such file or directory") eq_refl).
Defined.

(** C3 as stated fails where [npx] is configured and not installed:
    [initialize] raises and [cleanup] has not been called. *)
Lemma initialize_unresolved_command_skips_cleanup :
  let self := MCPServer.__init__ "files" Samples.npx_config in
  let run := MCPServer.initialize Samples.world self in
  ~ (forall e, outcome_of run = Raised e ->
               In (CleanupCalled (MCPServer.name self)) (events_of run)).
Proof.
  intros self run Hcleaned.
  exact (Hcleaned (ValueError "The command must be a valid string and cannot be None.") eq_refl).
Qed.

(** The same at the last step: when the catalog cannot be fetched, the
    error is raised with the session set and both contexts still held;
    [cleanup] has not been called. *)
Lemma initialize_catalog_failure_skips_cleanup :
  let self := MCPServer.__init__ "unlisted" Samples.weather_config in
  let run := MCPServer.initialize Samples.unlisted_world self in
  outcome_of run = Raised (OtherError "McpError" "Method not found") /\
  ~ In (CleanupCalled "unlisted") (events_of run) /\
  MCPServer.session (state_of run) = Some Samples.unlisted_session /\
  length (MCPServer.exit_stack (state_of run)) = 2%nat.
Proof.
  intros self run. repeat split.
  intros Hin. simpl in Hin.
  repeat (destruct Hin as [Hin | Hin]; [discriminate Hin |]). exact Hin.
Qed.

(* ================================================================== *)
(** * initialize_servers *)
(* ================================================================== *)

Section InitializeServers.

Variable w : World.

(** Every callback on the stack is called, in stack order, whatever the
    callbacks before it did. *)
Lemma run_exit_callbacks_events server callbacks :
  forall exc suppressed pending,
    snd (MCPServer.run_exit_callbacks server callbacks exc suppressed pending) =
    map (fun cb => Exited server (MCPServer.cb_resource cb)) callbacks.
Proof.
  induction callbacks as [| cb rest IH]; intros exc suppressed pending; [reflexivity |].
  simpl.
  destruct (MCPServer.cb_aexit cb exc) as [[|] | new_exc];
    match goal with
    | |- context [MCPServer.run_exit_callbacks server rest ?e ?s ?p] =>
        specialize (IH e s p);
        destruct (MCPServer.run_exit_callbacks server rest e s p) as [[[exc2 s2] p2] t]
    end; simpl in *; rewrite IH; reflexivity.
Qed.

Lemma exit_stack_aexit_events received self :
  events_of (MCPServer.exit_stack_aexit received self) =
  map (fun cb => Exited (MCPServer.name self) (MCPServer.cb_resource cb))
      (MCPServer.exit_stack self).
Proof.
  unfold MCPServer.exit_stack_aexit.
  pose proof (run_exit_callbacks_events (MCPServer.name self) (MCPServer.exit_stack self)
                received false false) as Hev.
  destruct (MCPServer.run_exit_callbacks _ _ _ _ _) as [[[exc suppressed] pending] t].
  simpl in Hev. subst t.
  destruct pending; [destruct exc |]; reflexivity.
Qed.

Lemma exit_stack_aexit_terminates received self :
  outcome_of (MCPServer.exit_stack_aexit received self) <> Diverged.
Proof.
  unfold MCPServer.exit_stack_aexit.
  destruct (MCPServer.run_exit_callbacks _ _ _ _ _) as [[[exc suppressed] pending] t].
  destruct pending; [destruct exc |]; discriminate.
Qed.

(** The block around a body that has left the server in state [self1]. *)
Lemma async_with_after body self result_of_body self1 t1 :
  body self = (result_of_body, self1, t1) ->
  result_of_body <> Diverged ->
  let block := MCPServer.async_with_exit_stack body self in
  outcome_of block <> Diverged /\
  state_of block = MCPServer.with_exit_stack self1 [] /\
  events_of block =
    t1 ++ map (fun cb => Exited (MCPServer.name self1) (MCPServer.cb_resource cb))
              (MCPServer.exit_stack self1) /\
  (MCPServer.exit_stack self1 = [] ->
   forall e, result_of_body = Raised e -> outcome_of block = Raised e).
Proof.
  intros Hbody Hterm block. subst block.
  unfold MCPServer.async_with_exit_stack. run_monad. rewrite Hbody.
  destruct result_of_body as [[] | e |]; [| | congruence].
  - pose proof (exit_stack_aexit_events None self1) as Hev.
    pose proof (exit_stack_aexit_state None self1) as Hst.
    pose proof (exit_stack_aexit_terminates None self1) as Htm.
    destruct (MCPServer.exit_stack_aexit None self1) as [[o s] t].
    observe. subst s t.
    destruct o; simpl; rewrite ?app_nil_r; repeat split; try discriminate; congruence.
  - pose proof (exit_stack_aexit_events (Some e) self1) as Hev.
    pose proof (exit_stack_aexit_state (Some e) self1) as Hst.
    pose proof (exit_stack_aexit_terminates (Some e) self1) as Htm.
    pose proof (exit_stack_aexit_empty (Some e) self1) as Hempty.
    destruct (MCPServer.exit_stack_aexit (Some e) self1) as [[o s] t].
    observe. subst s t.
    destruct o as [[|] | e' |]; simpl; rewrite ?app_nil_r; repeat split;
      try discriminate; try congruence;
      intros Hstack e0 He0; specialize (Hempty Hstack); congruence.
Qed.

(** The four ways [initialize] can end: before the [try]; inside it,
    after [cleanup]; at the catalog; or well. *)
Lemma initialize_cases self :
  (exists e, MCPServer.initialize w self = (Raised e, self, [])) \/
  (exists e,
     outcome_of (MCPServer.initialize w self) = Raised e /\
     MCPServer.exit_stack (state_of (MCPServer.initialize w self)) = []) \/
  (exists params sess e,
     MCPServer.initialize w self = (Raised e, connected w self params sess, connecting self)) \/
  (exists params sess items,
     MCPServer.initialize w self =
       (Ok tt,
        MCPServer.with_tools (connected w self params sess)
          (flat_map MCPServer.listed_tools items),
        connecting self)).
Proof.
  destruct (MCPServer.server_parameters w (MCPServer.config self)) as [params | e] eqn:Hparams.
  2: { left. exists e. apply initialize_no_parameters. exact Hparams. }
  right.
  destruct (stdio_aenter (stdio_client w params)) as [sess | e] eqn:Hspawn.
  2: { left. exists e.
       destruct (initialize_spawn_fails w self params e Hparams Hspawn) as [Ho [_ Hs]]. auto. }
  destruct (session_aenter sess) as [[] | e] eqn:Henter.
  2: { left. exists e.
       destruct (initialize_session_enter_fails w self params sess e Hparams Hspawn Henter)
         as [Ho [_ Hs]]. auto. }
  destruct (session_initialize sess) as [[] | e] eqn:Hinit.
  2: { left. exists e.
       destruct (initialize_handshake_fails w self params sess e Hparams Hspawn Henter Hinit)
         as [Ho [_ Hs]]. auto. }
  right.
  destruct (list_tools sess) as [items | e] eqn:Hlist.
  - right. exists params, sess, items. apply initialize_succeeds; assumption.
  - left. exists params, sess, e. apply initialize_catalog_fails; assumption.
Qed.

(** The guarded block for one entry: it ends, it leaves the exit stack
    empty, and when it completes the server has its session, although
    both of its contexts have been released. *)
Lemma initialize_block_spec server_name server_config :
  let self := MCPServer.__init__ server_name server_config in
  let block := initialize_block w server_name server_config in
  outcome_of block <> Diverged /\
  MCPServer.exit_stack (state_of block) = [] /\
  (forall u, outcome_of block = Ok u ->
     MCPServer.name (state_of block) = server_name /\
     (exists sess, MCPServer.session (state_of block) = Some sess) /\
     events_of block = connecting self ++ disconnecting server_name).
Proof.
  intros self block. subst block. unfold initialize_block. fold self.
  destruct (initialize_cases self) as [[e Hrun] | [[e [Ho Hs]] | [Hrun | Hrun]]].
  - destruct (async_with_after (MCPServer.initialize w) self (Raised e) self [] Hrun)
      as [Hterm [Hstate [_ Hraise]]]; [discriminate |].
    split; [exact Hterm |]. split; [rewrite Hstate; reflexivity |].
    intros u Hu. rewrite (Hraise eq_refl e eq_refl) in Hu. discriminate.
  - destruct (MCPServer.initialize w self) as [[o s] t] eqn:Hrun.
    unfold outcome_of, state_of in Ho, Hs. simpl in Ho, Hs. subst o.
    destruct (async_with_after (MCPServer.initialize w) self (Raised e) s t Hrun)
      as [Hterm [Hstate [_ Hraise]]]; [discriminate |].
    split; [exact Hterm |]. split; [rewrite Hstate; reflexivity |].
    intros u Hu. rewrite (Hraise Hs e eq_refl) in Hu. discriminate.
  - destruct Hrun as [params [sess [e Hrun]]].
    destruct (async_with_after (MCPServer.initialize w) self (Raised e) _ _ Hrun)
      as [Hterm [Hstate [Hev _]]]; [discriminate |].
    split; [exact Hterm |]. split; [rewrite Hstate; reflexivity |].
    intros u _. rewrite Hstate, Hev. repeat split. exists sess. reflexivity.
  - destruct Hrun as [params [sess [items Hrun]]].
    destruct (async_with_after (MCPServer.initialize w) self (Ok tt) _ _ Hrun)
      as [Hterm [Hstate [Hev _]]]; [discriminate |].
    split; [exact Hterm |]. split; [rewrite Hstate; reflexivity |].
    intros u _. rewrite Hstate, Hev. repeat split. exists sess. reflexivity.
Qed.

(** The loop over the entries: it never raises; it appends, in order,
    the servers of the entries whose block completes; and it runs the
    block of every named entry, whatever happened to the entries before. *)
Lemma initialize_each_run items :
  forall servers,
    initialize_each w items servers tt =
      (Ok (servers ++ map (block_server w) (filter (initializes w) items)),
       tt,
       flat_map (block_events w) items).
Proof.
  induction items as [| [server_name server_config] rest IH]; intros servers.
  - simpl. rewrite app_nil_r. reflexivity.
  - cbn [filter flat_map initialize_each].
    unfold initializes at 1, block_events at 1. cbn [fst snd].
    destruct (server_name =? "") eqn:Hname; [apply IH |].
    run_monad. fold (initialize_block w server_name server_config).
    destruct (initialize_block_spec server_name server_config) as [Hterm _].
    destruct (initialize_block w server_name server_config) as [[o s] t] eqn:Hblock.
    unfold outcome_of, events_of in *. cbn [fst snd] in *.
    destruct o as [u | e |]; [| | congruence].
    + rewrite IH. cbn [map]. unfold block_server at 2. cbn [fst snd].
      rewrite Hblock. unfold state_of. cbn [fst snd].
      rewrite <- app_assoc. rewrite app_nil_r. reflexivity.
    + rewrite IH. rewrite !app_nil_r. reflexivity.
Qed.

Lemma initialize_servers_run config_path env_path config :
  Config w config_path env_path = Returns config ->
  initialize_servers w config_path env_path tt =
    (Ok (map (block_server w) (filter (initializes w) (mcp_servers config))),
     tt,
     flat_map (block_events w) (mcp_servers config)).
Proof.
  intros Hconfig. unfold initialize_servers. run_monad. rewrite Hconfig.
  fold (mcp_servers config). rewrite initialize_each_run. reflexivity.
Qed.

Lemma initialize_servers_no_config config_path env_path e :
  Config w config_path env_path = Raises e ->
  initialize_servers w config_path env_path tt = (Raised e, tt, []).
Proof.
  intros Hconfig. unfold initialize_servers. run_monad. rewrite Hconfig. reflexivity.
Qed.

End InitializeServers.

(** C8. Once the configuration is loaded, [initialize_servers] never
    raises.  It runs the guarded block of every named entry, whatever
    happened to the entries before it, and returns, in the order of the
    configuration, the servers of exactly those entries whose own block
    completes.  So an entry that fails changes nothing for the others:
    the result is what it would be without that entry. *)
Theorem initialize_servers_partial_success :
  forall (w : World) (config_path : string) (env_path : option string)
         (config : option (list (string * ServerConfig))),
    Config w config_path env_path = Returns config ->
    let run := initialize_servers w config_path env_path tt in
    outcome_of run = Ok (map (block_server w) (filter (initializes w) (mcp_servers config))) /\
    events_of run = flat_map (block_events w) (mcp_servers config) /\
    (forall before failing after,
       mcp_servers config = before ++ failing :: after ->
       initializes w failing = false ->
       outcome_of run =
         Ok (map (block_server w) (filter (initializes w) (before ++ after)))).
Proof.
  intros w config_path env_path config Hconfig run. subst run.
  rewrite (initialize_servers_run w config_path env_path config Hconfig).
  split; [reflexivity |]. split; [reflexivity |].
  intros before failing after Hitems Hfails. unfold outcome_of. cbn [fst].
  rewrite Hitems, !filter_app. cbn [filter]. rewrite Hfails. reflexivity.
Qed.

(** Two providers, the first of which cannot be started: the second is
    initialized and returned. *)
Lemma initialize_servers_partial_success_witness :
  exists servers,
    outcome_of (initialize_servers Samples.world "mcp_config.json" (Some ".env") tt)
      = Ok servers /\
    map MCPServer.name servers = ["weather"] /\
    initializes Samples.world ("broken", Samples.broken_config) = false.
Proof.
  exists (map (block_server Samples.world)
            (filter (initializes Samples.world)
               [("broken", Samples.broken_config); ("weather", Samples.weather_config)])).
  split.
  - exact (proj1 (initialize_servers_partial_success Samples.world "mcp_config.json"
                    (Some ".env") _ eq_refl)).
  - split; reflexivity.
Defined.

(** C9. Every server that [initialize_servers] returns has its session
    set and its exit stack closed: the transport and the session context
    that [initialize] entered were released, in that run, before the
    function returned. *)
Theorem initialize_servers_closes_exit_stacks :
  forall (w : World) (config_path : string) (env_path : option string)
         (servers : list MCPServer.t),
    outcome_of (initialize_servers w config_path env_path tt) = Ok servers ->
    forall server,
      In server servers ->
      MCPServer.exit_stack server = [] /\
      (exists sess, MCPServer.session server = Some sess) /\
      (exists earlier later,
         events_of (initialize_servers w config_path env_path tt) =
           earlier ++ (connecting server ++ disconnecting (MCPServer.name server)) ++ later).
Proof.
  intros w config_path env_path servers Hrun server Hin.
  destruct (Config w config_path env_path) as [config | e] eqn:Hconfig.
  2: { rewrite (initialize_servers_no_config w config_path env_path e Hconfig) in Hrun.
       discriminate Hrun. }
  rewrite (initialize_servers_run w config_path env_path config Hconfig) in Hrun |- *.
  unfold outcome_of in Hrun. cbn [fst] in Hrun. injection Hrun as Hservers. subst servers.
  apply in_map_iff in Hin. destruct Hin as [[server_name server_config] [Hserver Hentry]].
  apply filter_In in Hentry. destruct Hentry as [Hentry Hinit].
  unfold initializes in Hinit. cbn [fst snd] in Hinit.
  destruct (server_name =? "") eqn:Hname; [discriminate Hinit |].
  destruct (initialize_block_spec w server_name server_config) as [_ [Hstack Hok]].
  unfold block_server in Hserver. cbn [fst snd] in Hserver.
  destruct (outcome_of (initialize_block w server_name server_config)) as [u | |] eqn:Hout;
    try discriminate Hinit.
  destruct (Hok u eq_refl) as [Hn [Hsess Hev]].
  rewrite Hserver in Hstack, Hn, Hsess.
  split; [exact Hstack |]. split; [exact Hsess |].
  apply in_split in Hentry. destruct Hentry as [before [after Hitems]].
  exists (flat_map (block_events w) before), (flat_map (block_events w) after).
  unfold events_of. cbn [snd]. rewrite Hitems, flat_map_app. cbn [flat_map].
  unfold block_events at 2. cbn [fst snd]. rewrite Hname, Hev.
  unfold connecting. rewrite Hn. reflexivity.
Qed.

Lemma initialize_servers_closes_exit_stacks_witness :
  let server := block_server Samples.world ("weather", Samples.weather_config) in
  MCPServer.exit_stack server = [] /\
  MCPServer.session server = Some Samples.weather_session /\
  MCPServer.tools server = [Samples.weather_tool].
Proof.
  intros server.
  pose proof (initialize_servers_closes_exit_stacks Samples.world "mcp_config.json"
                (Some ".env") [server] eq_refl server (or_introl eq_refl)) as H.
  exact (conj (proj1 H) (conj eq_refl eq_refl)).
Defined.

(* ================================================================== *)
(** * The chat loop *)
(* ================================================================== *)

Section ChatLoop.

Variable w : World.

(** A [Tool] has no [execute_tool]: looking the attribute up raises,
    whatever the tool and the arguments. *)
Lemma await_execute_tool_raises tool arguments :
  Chat.await_execute_tool w tool arguments =
    Raises (AttributeError "'Tool' object has no attribute 'execute_tool'").
Proof. reflexivity. Qed.

(** ** The history only grows *)

Lemma extends_bind (A B : Type) (m : Chat.chat A) (k : A -> Chat.chat B) :
  extends m -> (forall a, extends (k a)) -> extends (bind m k).
Proof.
  intros Hm Hk p. unfold bind.
  destruct (Hm p) as [added1 H1].
  destruct (m p) as [[o s1] t1]. unfold state_of in *. cbn [fst snd] in *.
  destruct o as [a | e |]; try (exists added1; exact H1).
  destruct (Hk a s1) as [added2 H2].
  destruct (k a s1) as [[o2 s2] t2]. unfold state_of in *. cbn [fst snd] in *.
  exists (added1 ++ added2). rewrite H2, H1, app_assoc. reflexivity.
Qed.

Lemma extends_try_except (A : Type) (body : Chat.chat A) (handler : exn -> Chat.chat A) :
  extends body -> (forall e, extends (handler e)) -> extends (try_except body handler).
Proof.
  intros Hbody Hhandler p. unfold try_except.
  destruct (Hbody p) as [added1 H1].
  destruct (body p) as [[o s1] t1]. unfold state_of in *. cbn [fst snd] in *.
  destruct o as [a | e |]; try (exists added1; exact H1).
  destruct (Hhandler e s1) as [added2 H2].
  destruct (handler e s1) as [[o2 s2] t2]. unfold state_of in *. cbn [fst snd] in *.
  exists (added1 ++ added2). rewrite H2, H1, app_assoc. reflexivity.
Qed.

Lemma extends_pure (A : Type) (m : Chat.chat A) :
  (forall p, state_of (m p) = p) -> extends m.
Proof. intros Hm p. exists []. rewrite Hm, app_nil_r. reflexivity. Qed.

Lemma extends_append m : extends (Chat.append m).
Proof. intros p. exists [m]. reflexivity. Qed.

Lemma extends_get_response llm_client tools : extends (Chat.get_response llm_client tools).
Proof.
  intros p. exists []. unfold Chat.get_response. run_chat.
  destruct (llm_client _ _ _); unfold state_of; cbn [fst snd Chat.message_history];
    rewrite app_nil_r; reflexivity.
Qed.

Lemma extends_for_tool_in_tools tools tool_call :
  extends (Chat.for_tool_in_tools w tools tool_call).
Proof.
  induction tools as [| tool rest IH]; simpl.
  - apply extends_pure. reflexivity.
  - apply extends_bind; [| intros _; exact IH].
    destruct (Tool.name tool =? ToolCall.name tool_call).
    + apply extends_try_except.
      * apply extends_bind; [| intros ?; apply extends_append].
        apply extends_pure. intros p. rewrite ?await_execute_tool_raises. reflexivity.
      * intros e. apply extends_append.
    + apply extends_pure. reflexivity.
Qed.

Lemma extends_for_tool_call tools tool_calls :
  extends (Chat.for_tool_call w tools tool_calls).
Proof.
  induction tool_calls as [| tool_call rest IH]; simpl.
  - apply extends_pure. reflexivity.
  - apply extends_bind; [| intros _; exact IH].
    destruct tools as [tools |].
    + apply extends_for_tool_in_tools.
    + apply extends_pure. reflexivity.
Qed.

Lemma extends_while_tool_calls fuel llm_client tools :
  forall llm_response, extends (Chat.while_tool_calls w fuel llm_client tools llm_response).
Proof.
  induction fuel as [| fuel IH]; intros llm_response; cbn [Chat.while_tool_calls];
    destruct (LLMResponse.tool_calls llm_response) as [[| tool_call more] |];
    try (apply extends_pure; reflexivity).
  apply extends_bind; [apply extends_for_tool_call | intros _].
  apply extends_bind.
  - apply extends_try_except; [apply extends_get_response |].
    intros e. apply extends_pure. reflexivity.
  - intros r. apply extends_bind; [apply extends_append | intros _; apply IH].
Qed.

(** ** One round of tool calls *)

(** The loop over the tools appends one entry for every tool that bears
    the name asked for, and every such entry is the failed lookup: no
    tool result ever reaches the history. *)
Lemma for_tool_in_tools_run tools tool_call :
  forall p,
    Chat.for_tool_in_tools w tools tool_call p =
      (Ok tt,
       {| Chat.message_history :=
            Chat.message_history p ++ map (fun _ => no_execute_tool) (named_like tool_call tools);
          Chat.llm_requests := Chat.llm_requests p |},
       []).
Proof.
  induction tools as [| tool rest IH]; intros p.
  - destruct p as [history requests]. simpl. rewrite app_nil_r. reflexivity.
  - cbn [Chat.for_tool_in_tools named_like filter]. fold (named_like tool_call rest).
    unfold bind at 1.
    destruct (Tool.name tool =? ToolCall.name tool_call).
    + rewrite await_execute_tool_raises. run_chat. rewrite IH.
      cbn [Chat.message_history Chat.llm_requests map app].
      rewrite <- app_assoc. reflexivity.
    + run_chat. rewrite IH. reflexivity.
Qed.

(** A turn with one round: the model asks for one tool and then
    answers.  The answer is returned; between the two assistant entries
    the history holds the failed lookups and nothing else. *)
Lemma get_llm_response_one_round fuel llm_client user_input tools tool_call first final p :
  let asked := Chat.message_history p ++ [user_message user_input] in
  let asked_again :=
    asked ++ assistant_message first
          :: map (fun _ => no_execute_tool) (named_like tool_call tools) in
  llm_client (Chat.llm_requests p) asked (Some tools) = Returns first ->
  LLMResponse.tool_calls first = Some [tool_call] ->
  llm_client (S (Chat.llm_requests p)) asked_again (Some tools) = Returns final ->
  LLMResponse.tool_calls final = None \/ LLMResponse.tool_calls final = Some [] ->
  Chat.get_llm_response w (S fuel) llm_client user_input (Some tools) p =
    (Ok (LLMResponse.content final),
     {| Chat.message_history := asked_again ++ [assistant_message final];
        Chat.llm_requests := S (S (Chat.llm_requests p)) |},
     [Chat.LLMRequest asked; Chat.LLMRequest asked_again]).
Proof.
  intros asked asked_again Hfirst Hcalls Hfinal Hdone.
  unfold Chat.get_llm_response. run_chat.
  cbn [Chat.message_history Chat.llm_requests].
  fold (user_message user_input). fold asked. rewrite Hfirst. run_chat.
  cbn [Chat.while_tool_calls]. rewrite Hcalls.
  cbn [Chat.for_tool_call]. run_chat. rewrite for_tool_in_tools_run.
  cbn [Chat.message_history Chat.llm_requests].
  fold (assistant_message first). rewrite <- app_assoc. cbn [app].
  fold asked_again. rewrite Hfinal. run_chat.
  cbn [Chat.message_history Chat.llm_requests]. fold (assistant_message final).
  assert (Hstop : forall p',
             Chat.while_tool_calls w fuel llm_client (Some tools) final p' =
             (Ok (LLMResponse.content final), p', [])).
  { intros p'. destruct fuel; cbn [Chat.while_tool_calls];
      destruct Hdone as [Hd | Hd]; rewrite Hd; reflexivity. }
  rewrite Hstop. reflexivity.
Qed.

(** One call of [get_llm_response]: the user message goes to the end of
    the history that is already there, and the whole of it is sent to
    the model. *)
Lemma get_llm_response_run fuel llm_client user_input tools p :
  let asked := Chat.message_history p
                 ++ [{| Chat.role := "user"; Chat.content := VStr user_input |}] in
  exists added later,
    Chat.message_history
      (state_of (Chat.get_llm_response w fuel llm_client user_input tools p)) =
      asked ++ added /\
    events_of (Chat.get_llm_response w fuel llm_client user_input tools p) =
      Chat.LLMRequest asked :: later.
Proof.
  intros asked. unfold Chat.get_llm_response. run_chat.
  cbn [Chat.message_history Chat.llm_requests]. fold asked.
  destruct (llm_client (Chat.llm_requests p) asked tools) as [llm_response | e]; run_chat.
  - match goal with
    | |- context [Chat.while_tool_calls w fuel llm_client tools llm_response ?p1] =>
        destruct (extends_while_tool_calls fuel llm_client tools llm_response p1)
          as [added Hadded];
        destruct (Chat.while_tool_calls w fuel llm_client tools llm_response p1)
          as [[o s] t]
    end.
    unfold state_of, events_of in *. cbn [fst snd Chat.message_history] in *.
    exists ({| Chat.role := "assistant";
               Chat.content := VStr (LLMResponse.content llm_response) |} :: added), t.
    split; [| reflexivity].
    rewrite Hadded, <- app_assoc. reflexivity.
  - exists [], []. unfold state_of, events_of. cbn [fst snd Chat.message_history app].
    split; [rewrite app_nil_r |]; reflexivity.
Qed.

End ChatLoop.

(** C1, on the code.  The model asks for [get_weather], which is in the
    tool list with conforming arguments, and then answers.  The answer
    is returned, and the history holds the user message, the assistant
    message of the tool round and the final assistant message, each in
    its place; but the tool message between them carries the
    [AttributeError] of the call [tool.execute_tool], not the tool's
    result: the provider is never asked. *)
Theorem get_llm_response_tool_round :
  let run :=
    Chat.get_llm_response Samples.world 2 Samples.weather_llm "What is the weather in Paris?"
      (Some [Samples.weather_tool]) Samples.fresh_process in
  outcome_of run = Ok "It is 22C in Paris." /\
  Chat.message_history (state_of run) =
    Chat.message_history Samples.fresh_process ++
    [{| Chat.role := "user"; Chat.content := VStr "What is the weather in Paris?" |};
     {| Chat.role := "assistant"; Chat.content := VStr "" |};
     {| Chat.role := "tool";
        Chat.content := VStr "Error: 'Tool' object has no attribute 'execute_tool'" |};
     {| Chat.role := "assistant"; Chat.content := VStr "It is 22C in Paris." |}].
Proof.
  intros run. subst run.
  rewrite (get_llm_response_one_round Samples.world 1 Samples.weather_llm
             "What is the weather in Paris?" [Samples.weather_tool]
             (ToolCall.mk "get_weather" (JObj [("city", JStr "Paris")]))
             (LLMResponse.mk "assistant" ""
                (Some [ToolCall.mk "get_weather" (JObj [("city", JStr "Paris")])]))
             (LLMResponse.mk "assistant" "It is 22C in Paris." None)
             Samples.fresh_process eq_refl eq_refl eq_refl (or_introl eq_refl)).
  split; reflexivity.
Qed.

(** The same call made through the server that owns the tool does give
    the result that the history should hold. *)
Lemma execute_tool_weather_example :
  outcome_of
    (MCPServer.execute_tool Samples.world "get_weather" (JObj [("city", JStr "Paris")]) 2 1
       (block_server Samples.world ("weather", Samples.weather_config)))
  = Ok (VStr "22C").
Proof. reflexivity. Qed.

(** C2 as stated fails on two conversations held one after the other:
    the messages of the first are in the history of the second, and are
    sent to the model with it. *)
Lemma message_history_is_not_isolated :
  let first :=
    Chat.get_llm_response Samples.world 1 (Samples.plain_llm "Noted.") "My PIN is 1234."
      (Some []) Samples.fresh_process in
  let second :=
    Chat.get_llm_response Samples.world 1 (Samples.plain_llm "I am an assistant.")
      "Who are you?" (Some []) (state_of first) in
  let of_first :=
    [{| Chat.role := "user"; Chat.content := VStr "My PIN is 1234." |};
     {| Chat.role := "assistant"; Chat.content := VStr "Noted." |}] in
  ~ (forall m, In m of_first -> ~ In m (Chat.message_history (state_of second))) /\
  events_of second =
    [Chat.LLMRequest
       (Chat.message_history Samples.fresh_process ++ of_first ++
        [{| Chat.role := "user"; Chat.content := VStr "Who are you?" |}])].
Proof.
  intros first second of_first. split; [| reflexivity].
  intros Hisolated.
  apply (Hisolated {| Chat.role := "user"; Chat.content := VStr "My PIN is 1234." |}).
  - left. reflexivity.
  - right. left. reflexivity.
Qed.

(** C2, as the code has it.  The history is one log for the whole
    process.  Every call of [get_llm_response] adds its user message and
    what follows to the end of the log that the calls before it left, and
    sends that whole log to the model: of two conversations held one
    after the other, the second has all the messages of the first in its
    history, before its own. *)
Theorem message_history_is_shared :
  forall (w : World) (fuel1 fuel2 : nat) (llm1 llm2 : Chat.LLMClient)
         (input1 input2 : string) (tools1 tools2 : option (list Tool.t)) (p : Chat.process),
    let first := Chat.get_llm_response w fuel1 llm1 input1 tools1 p in
    let second := Chat.get_llm_response w fuel2 llm2 input2 tools2 (state_of first) in
    let user text := {| Chat.role := "user"; Chat.content := VStr text |} in
    exists added1 added2 later,
      Chat.message_history (state_of first) =
        Chat.message_history p ++ user input1 :: added1 /\
      Chat.message_history (state_of second) =
        (Chat.message_history p ++ user input1 :: added1) ++ user input2 :: added2 /\
      events_of second =
        Chat.LLMRequest ((Chat.message_history p ++ user input1 :: added1) ++ [user input2])
        :: later.
Proof.
  intros w fuel1 fuel2 llm1 llm2 input1 input2 tools1 tools2 p first second user.
  destruct (get_llm_response_run w fuel1 llm1 input1 tools1 p) as [added1 [later1 [H1 _]]].
  destruct (get_llm_response_run w fuel2 llm2 input2 tools2 (state_of first))
    as [added2 [later2 [H2 E2]]].
  fold first in H1. fold second in H2, E2.
  exists added1, added2, later2.
  rewrite <- app_assoc in H1. cbn [app] in H1.
  rewrite H2, E2, H1. rewrite <- (app_assoc _ [user input2] added2).
  repeat split.
Qed.

(* ================================================================== *)
(** * More on the connection: order of checks, waiting, teardown *)
(* ================================================================== *)

(** X1. Without a session [execute_tool] raises "not initialized" before
    it looks at the tool name or the arguments: nothing is validated, the
    provider is not called, the server is left as it was. *)
Theorem execute_tool_requires_session :
  forall (w : World) (self : MCPServer.t) (tool_name : string) (arguments : json)
         (retries : Z) (delay : Q),
    MCPServer.session self = None ->
    MCPServer.execute_tool w tool_name arguments retries delay self =
      (Raised (RuntimeError ("Server " ++ MCPServer.name self ++ " not initialized")),
       self, []).
Proof.
  intros w self tool_name arguments retries delay Hs.
  unfold MCPServer.execute_tool. run_monad. rewrite Hs. reflexivity.
Qed.

Lemma execute_tool_requires_session_witness :
  outcome_of
    (MCPServer.execute_tool Samples.world "no-such-tool" JNull 2 1
       (MCPServer.__init__ "weather" Samples.weather_config))
  = Raised (RuntimeError "Server weather not initialized").
Proof.
  exact (f_equal outcome_of
           (execute_tool_requires_session Samples.world
              (MCPServer.__init__ "weather" Samples.weather_config)
              "no-such-tool" JNull 2 1 eq_refl)).
Defined.

Section Waiting.

Variable w : World.
Variables (tool_name : string) (arguments : json) (retries : Z) (delay : Q).


End Waiting.



Section Teardown.

(** The whole of a run of [cleanup]. *)
Lemma cleanup_full self :
  MCPServer.cleanup self =
    (Ok tt,
     match outcome_of (MCPServer.exit_stack_aclose self) with
     | Raised _ => MCPServer.with_exit_stack self []
     | _ => MCPServer.with_stdio_context
              (MCPServer.with_session (MCPServer.with_exit_stack self []) None) None
     end,
     CleanupCalled (MCPServer.name self) :: exits self).
Proof.
  unfold MCPServer.cleanup, MCPServer.exit_stack_aclose, exits. run_monad.
  pose proof (exit_stack_aexit_events None self) as Hev.
  pose proof (exit_stack_aexit_state None self) as Hst.
  pose proof (exit_stack_aexit_terminates None self) as Htm.
  destruct (MCPServer.exit_stack_aexit None self) as [[o s] t].
  unfold events_of, state_of, outcome_of in *. cbn [fst snd] in *. subst s t.
  destruct o as [b | e |]; [| | congruence]; cbn [fst snd app]; rewrite ?app_nil_r;
    reflexivity.
Qed.

(** Callbacks that all return leave nothing to raise. *)
Lemma run_exit_callbacks_quiet server callbacks :
  (forall cb exc, In cb callbacks -> exists b, MCPServer.cb_aexit cb exc = ExitReturns b) ->
  forall exc suppressed,
    snd (fst (MCPServer.run_exit_callbacks server callbacks exc suppressed false)) = false.
Proof.
  induction callbacks as [| cb rest IH]; intros Hquiet exc suppressed; [reflexivity |].
  simpl. destruct (Hquiet cb exc (or_introl eq_refl)) as [b Hb]. rewrite Hb.
  assert (Hrest : forall cb' exc', In cb' rest ->
                    exists b', MCPServer.cb_aexit cb' exc' = ExitReturns b').
  { intros cb' exc' Hin. apply Hquiet. right. exact Hin. }
  destruct b;
    match goal with
    | |- context [MCPServer.run_exit_callbacks server rest ?e ?s false] =>
        specialize (IH Hrest e s);
        destruct (MCPServer.run_exit_callbacks server rest e s false) as [[[e2 s2] p2] t]
    end; exact IH.
Qed.

Lemma exit_stack_aclose_quiet self :
  (forall cb exc, In cb (MCPServer.exit_stack self) ->
     exists b, MCPServer.cb_aexit cb exc = ExitReturns b) ->
  outcome_of (MCPServer.exit_stack_aclose self) = Ok tt.
Proof.
  intros Hquiet. unfold MCPServer.exit_stack_aclose, MCPServer.exit_stack_aexit. run_monad.
  pose proof (run_exit_callbacks_quiet (MCPServer.name self) (MCPServer.exit_stack self)
                Hquiet None false) as Hp.
  destruct (MCPServer.run_exit_callbacks _ _ _ _ _) as [[[exc suppressed] pending] t].
  cbn [fst snd] in Hp. subst pending. reflexivity.
Qed.

End Teardown.

(** X3. [cleanup] exits every context on the stack exactly once, the
    most recently entered first, whatever the exits do: one that raises
    does not keep the ones below it from being exited. *)
Theorem cleanup_exits_every_context :
  forall self : MCPServer.t,
    events_of (MCPServer.cleanup self) = CleanupCalled (MCPServer.name self) :: exits self.
Proof. intros self. rewrite cleanup_full. reflexivity. Qed.

(** X4. [cleanup] forgets the session only when closing the exit stack
    went through.  When closing raises, the error is swallowed but the
    assignments behind it are skipped: the server keeps its session,
    with an empty exit stack.  The catalog is kept either way. *)
Theorem cleanup_session_afterwards :
  forall self : MCPServer.t,
    let after := state_of (MCPServer.cleanup self) in
    (forall e, outcome_of (MCPServer.exit_stack_aclose self) = Raised e ->
       MCPServer.session after = MCPServer.session self) /\
    (outcome_of (MCPServer.exit_stack_aclose self) = Ok tt ->
       MCPServer.session after = None /\ MCPServer.stdio_context after = None) /\
    MCPServer.tools after = MCPServer.tools self /\
    MCPServer.exit_stack after = [].
Proof.
  intros self after. subst after. rewrite cleanup_full.
  unfold state_of. cbn [fst snd].
  destruct (outcome_of (MCPServer.exit_stack_aclose self)) as [[] | e |];
    repeat split; intros; try discriminate; reflexivity.
Qed.

(** X5. The life of a connection.  After an [initialize] in which every
    step went through, [cleanup] exits the session context and then the
    transport; if these exits return, the session is gone, the catalog
    is still there, and every later [execute_tool] is refused as "not
    initialized" without a call to the provider. *)
Theorem initialize_cleanup_execute :
  forall (w : World) (self : MCPServer.t) (params : StdioServerParameters)
         (sess : ClientSession) (items : list response_item),
    MCPServer.exit_stack self = [] ->
    MCPServer.server_parameters w (MCPServer.config self) = Returns params ->
    stdio_aenter (stdio_client w params) = Returns sess ->
    session_aenter sess = Returns tt ->
    session_initialize sess = Returns tt ->
    list_tools sess = Returns items ->
    (forall exc, exists b, session_aexit sess exc = ExitReturns b) ->
    (forall exc, exists b, stdio_aexit (stdio_client w params) exc = ExitReturns b) ->
    let ready := state_of (MCPServer.initialize w self) in
    let closed := MCPServer.cleanup ready in
    outcome_of closed = Ok tt /\
    events_of closed =
      [CleanupCalled (MCPServer.name self);
       Exited (MCPServer.name self) SessionContext;
       Exited (MCPServer.name self) StdioTransport] /\
    MCPServer.session (state_of closed) = None /\
    MCPServer.tools (state_of closed) = flat_map MCPServer.listed_tools items /\
    (forall tool_name arguments retries delay,
       MCPServer.execute_tool w tool_name arguments retries delay (state_of closed) =
         (Raised (RuntimeError ("Server " ++ MCPServer.name self ++ " not initialized")),
          state_of closed, [])).
Proof.
  intros w self params sess items Hstack Hparams Hspawn Henter Hinit Hlist Hsess Hstdio
         ready closed.
  subst closed ready.
  assert (Hready : state_of (MCPServer.initialize w self) =
                   MCPServer.with_tools (connected w self params sess)
                     (flat_map MCPServer.listed_tools items)).
  { rewrite (initialize_succeeds w self params sess items Hparams Hspawn Henter Hinit Hlist).
    reflexivity. }
  rewrite Hready.
  set (ready := MCPServer.with_tools (connected w self params sess)
                  (flat_map MCPServer.listed_tools items)).
  assert (Hquiet : outcome_of (MCPServer.exit_stack_aclose ready) = Ok tt).
  { apply exit_stack_aclose_quiet. intros cb exc Hin.
    subst ready. cbn in Hin. rewrite Hstack in Hin.
    destruct Hin as [Hcb | [Hcb | []]]; subst cb; cbn; auto. }
  assert (Hclosed : MCPServer.cleanup ready =
                    (Ok tt,
                     MCPServer.with_stdio_context
                       (MCPServer.with_session (MCPServer.with_exit_stack ready []) None) None,
                     CleanupCalled (MCPServer.name ready) :: exits ready)).
  { rewrite cleanup_full, Hquiet. reflexivity. }
  rewrite Hclosed. unfold outcome_of, events_of, state_of. cbn [fst snd].
  split; [reflexivity |].
  split; [unfold exits; subst ready; cbn; rewrite Hstack; reflexivity |].
  split; [reflexivity |]. split; [reflexivity |].
  intros tool_name arguments retries delay.
  rewrite execute_tool_requires_session by reflexivity. reflexivity.
Qed.

Lemma initialize_cleanup_execute_witness :
  let closed := MCPServer.cleanup MoreSamples.weather_server in
  MCPServer.session (state_of closed) = None /\
  MCPServer.tools (state_of closed) = [Samples.weather_tool] /\
  outcome_of
    (MCPServer.execute_tool Samples.world "get_weather" (JObj [("city", JStr "Paris")]) 2 1
       (state_of closed))
  = Raised (RuntimeError "Server weather not initialized").
Proof.
  pose proof (initialize_cleanup_execute Samples.world
                (MCPServer.__init__ "weather" Samples.weather_config)
                {| command := "python"; args := ["weather_server.py"]; env := None |}
                Samples.weather_session
                [TupleItem "meta" []; TupleItem "nextCursor" [];
                 TupleItem "tools"
                   [{| rt_name := "get_weather";
                       rt_description := "Current weather of a city";
                       rt_inputSchema := Samples.weather_schema |}]]
                eq_refl eq_refl eq_refl eq_refl eq_refl eq_refl
                (fun _ => ex_intro _ false eq_refl)
                (fun _ => ex_intro _ false eq_refl)) as H.
  cbv zeta in H.
  destruct H as [_ [_ [Hs [Ht Hx]]]].
  exact (conj Hs (conj Ht (f_equal outcome_of
           (Hx "get_weather" (JObj [("city", JStr "Paris")]) 2%Z 1%Q)))).
Defined.




(* ================================================================== *)
(** * The launch parameters *)
(* ================================================================== *)

Lemma getenv_dict_set d k v name :
  Config.getenv (dict_set d k v) name =
  if k =? name then Some v else Config.getenv d name.
Proof.
  induction d as [| [k' v'] rest IH]; simpl.
  - reflexivity.
  - destruct (k =? k') eqn:Hk; simpl.
    + apply String.eqb_eq in Hk. subst k'. destruct (k =? name); reflexivity.
    + rewrite IH. destruct (k' =? name) eqn:Hk'; [| reflexivity].
      apply String.eqb_eq in Hk'. subst k'. rewrite Hk. reflexivity.
Qed.

Lemma getenv_app l1 l2 name :
  Config.getenv (l1 ++ l2) name =
  match Config.getenv l1 name with
  | Some v => Some v
  | None => Config.getenv l2 name
  end.
Proof.
  induction l1 as [| [k v] rest IH]; simpl; [reflexivity |].
  destruct (k =? name); [reflexivity | exact IH].
Qed.

Lemma getenv_dict_merge over :
  forall base name,
    Config.getenv (dict_merge base over) name =
    match Config.getenv (rev over) name with
    | Some v => Some v
    | None => Config.getenv base name
    end.
Proof.
  unfold dict_merge.
  induction over as [| [k v] rest IH]; intros base name; simpl; [reflexivity |].
  rewrite IH, getenv_app, getenv_dict_set. simpl.
  destruct (Config.getenv (rev rest) name); [reflexivity |].
  destruct (k =? name); reflexivity.
Qed.

(** X7. The environment of the provider process.  When the entry has a
    non-empty [env], the process gets the ambient environment with the
    configured variables laid over it: a configured variable wins over
    an ambient one of the same name, every other ambient variable is
    passed on.  When [env] is absent or empty, no environment is passed
    at all. *)
Theorem server_parameters_environment :
  forall (w : World) (config : ServerConfig) (params : StdioServerParameters),
    MCPServer.server_parameters w config = Returns params ->
    match cfg_env config with
    | Some (kv :: more) =>
        exists merged,
          env params = Some merged /\
          forall name,
            Config.getenv merged name =
            match Config.getenv (rev (kv :: more)) name with
            | Some v => Some v
            | None => Config.getenv (environ w) name
            end
    | _ => env params = None
    end.
Proof.
  intros w config params Hparams. unfold MCPServer.server_parameters in Hparams.
  destruct (getitem "command" (cfg_command config)) as [configured | e]; [| discriminate].
  destruct (match configured with
            | Some c => if c =? "npx" then which w "npx" else Some c
            | None => None
            end) as [command |]; [| discriminate].
  destruct (getitem "args" (cfg_args config)) as [args | e]; [| discriminate].
  injection Hparams as Hparams. subst params. cbn [env].
  destruct (cfg_env config) as [[| kv more] |]; try reflexivity.
  exists (dict_merge (environ w) (kv :: more)). split; [reflexivity |].
  intros name. apply getenv_dict_merge.
Qed.

Lemma server_parameters_environment_witness :
  exists merged,
    option_map env (match MCPServer.server_parameters
                            {| which := fun _ => Some "/usr/bin/npx";
                               environ := [("PATH", "/usr/bin"); ("TEST", "ambient")];
                               stdio_client := stdio_client Samples.world;
                               jsonschema_validate := jsonschema_validate Samples.world;
                               json_loads := json_loads Samples.world;
                               Config := Config Samples.world |}
                            Samples.npx_config with
                    | Returns params => Some params
                    | Raises _ => None
                    end) = Some (Some merged) /\
    Config.getenv merged "TEST" = Some "value" /\
    Config.getenv merged "PATH" = Some "/usr/bin".
Proof.
  destruct (server_parameters_environment
              {| which := fun _ => Some "/usr/bin/npx";
                 environ := [("PATH", "/usr/bin"); ("TEST", "ambient")];
                 stdio_client := stdio_client Samples.world;
                 jsonschema_validate := jsonschema_validate Samples.world;
                 json_loads := json_loads Samples.world;
                 Config := Config Samples.world |}
              Samples.npx_config
              {| command := "/usr/bin/npx"; args := ["test-server"];
                 env := Some [("PATH", "/usr/bin"); ("TEST", "value")] |}
              eq_refl) as [merged [Henv Hget]].
  exists merged. cbn in Henv. injection Henv as Hmerged. subst merged.
  split; [reflexivity |]. split; reflexivity.
Defined.

(** X8. How the launch parameters can fail, and what they are when they
    do not.  A missing [command] or [args] key is a [KeyError]; a
    [command] that is [null], or ["npx"] where no [npx] is installed, is
    the [ValueError] of the guard.  Any other command is taken as it is
    written, without a look at the search path. *)
Theorem server_parameters_resolution :
  forall (w : World) (config : ServerConfig),
    let run := MCPServer.server_parameters w config in
    (cfg_command config = None -> run = Raises (KeyError "command")) /\
    (cfg_command config <> None -> resolved_command w config = None ->
       run = Raises (ValueError "The command must be a valid string and cannot be None.")) /\
    (forall c, resolved_command w config = Some c -> cfg_args config = None ->
       run = Raises (KeyError "args")) /\
    (forall params, run = Returns params ->
       resolved_command w config = Some (command params) /\
       cfg_args config = Some (args params)) /\
    (forall c, cfg_command config = Some (Some c) -> c <> "npx" ->
       resolved_command w config = Some c).
Proof.
  intros w config run. subst run.
  unfold MCPServer.server_parameters, resolved_command, getitem.
  split; [| split; [| split; [| split]]].
  - intros Hc. rewrite Hc. reflexivity.
  - intros Hsome Hres.
    destruct (cfg_command config) as [[c |] |]; [| reflexivity | contradiction].
    rewrite Hres. reflexivity.
  - intros c Hres Hargs.
    destruct (cfg_command config) as [[c' |] |]; try discriminate Hres.
    rewrite Hres, Hargs. reflexivity.
  - intros params Hrun.
    destruct (cfg_command config) as [[c' |] |]; try discriminate Hrun.
    destruct (if c' =? "npx" then which w "npx" else Some c') as [cmd |];
      try discriminate Hrun.
    destruct (cfg_args config) as [a |]; try discriminate Hrun.
    injection Hrun as Hrun. subst params. split; reflexivity.
  - intros c Hc Hne. rewrite Hc.
    apply String.eqb_neq in Hne. rewrite Hne. reflexivity.
Qed.

Lemma server_parameters_resolution_witness :
  MCPServer.server_parameters Samples.world Samples.npx_config =
    Raises (ValueError "The command must be a valid string and cannot be None.").
Proof.
  assert (Hsome : cfg_command Samples.npx_config <> None) by discriminate.
  exact (proj1 (proj2 (server_parameters_resolution Samples.world Samples.npx_config))
           Hsome eq_refl).
Defined.

(* ================================================================== *)
(** * Shutdown (app/main.py) *)
(* ================================================================== *)

Lemma shutdown_run servers :
  Main.shutdown servers tt =
    (Ok (map (fun server => state_of (MCPServer.cleanup server)) servers),
     tt,
     flat_map (fun server => CleanupCalled (MCPServer.name server) :: exits server) servers).
Proof.
  induction servers as [| server rest IH]; [reflexivity |].
  cbn [Main.shutdown map flat_map]. run_monad.
  rewrite cleanup_full, IH. unfold state_of. cbn [fst snd].
  rewrite app_nil_r. reflexivity.
Qed.

(** X9. The shutdown loop never raises, whatever the exits of the
    contexts do.  It cleans up every server once, in the order of the
    list, exits every context that is still on a stack, and leaves every
    exit stack empty. *)
Theorem shutdown_cleans_every_server :
  forall servers : list MCPServer.t,
    exists closed,
      outcome_of (Main.shutdown servers tt) = Ok closed /\
      map MCPServer.name closed = map MCPServer.name servers /\
      Forall (fun server => MCPServer.exit_stack server = []) closed /\
      events_of (Main.shutdown servers tt) =
        flat_map (fun server => CleanupCalled (MCPServer.name server) :: exits server)
                 servers.
Proof.
  intros servers. rewrite shutdown_run.
  exists (map (fun server => state_of (MCPServer.cleanup server)) servers).
  split; [reflexivity |]. split; [| split; [| reflexivity]].
  - rewrite map_map. apply map_ext. intros server. rewrite cleanup_full.
    unfold state_of. cbn [fst snd].
    destruct (outcome_of (MCPServer.exit_stack_aclose server)) as [[] | e |]; reflexivity.
  - apply Forall_forall. intros closed Hin. apply in_map_iff in Hin.
    destruct Hin as [server [Hclosed _]]. subst closed. rewrite cleanup_full.
    unfold state_of. cbn [fst snd].
    destruct (outcome_of (MCPServer.exit_stack_aclose server)) as [[] | e |]; reflexivity.
Qed.

(** X10. Startup and shutdown together.  The servers that
    [initialize_servers] returns have nothing left on their exit stacks,
    so the shutdown loop releases nothing for them: all it does is to
    forget their sessions. *)
Theorem shutdown_after_startup_releases_nothing :
  forall (w : World) (config_path : string) (env_path : option string)
         (servers : list MCPServer.t),
    outcome_of (initialize_servers w config_path env_path tt) = Ok servers ->
    releases (events_of (Main.shutdown servers tt)) = [] /\
    events_of (Main.shutdown servers tt) =
      map (fun server => CleanupCalled (MCPServer.name server)) servers /\
    exists closed,
      outcome_of (Main.shutdown servers tt) = Ok closed /\
      Forall (fun server => MCPServer.session server = None) closed.
Proof.
  intros w config_path env_path servers Hrun.
  assert (Hstacks : Forall (fun server => MCPServer.exit_stack server = []) servers).
  { destruct (Config w config_path env_path) as [config | e] eqn:Hconfig.
    2: { rewrite (initialize_servers_no_config w config_path env_path e Hconfig) in Hrun.
         discriminate Hrun. }
    rewrite (initialize_servers_run w config_path env_path config Hconfig) in Hrun.
    unfold outcome_of in Hrun. cbn [fst] in Hrun. injection Hrun as Hservers. subst servers.
    apply Forall_forall. intros server Hin. apply in_map_iff in Hin.
    destruct Hin as [[server_name server_config] [Hserver _]]. subst server.
    destruct (initialize_block_spec w server_name server_config) as [_ [Hstack _]].
    exact Hstack. }
  rewrite shutdown_run. unfold events_of, outcome_of. cbn [fst snd].
  assert (Hevents : flat_map (fun server => CleanupCalled (MCPServer.name server)
                                            :: exits server) servers =
                    map (fun server => CleanupCalled (MCPServer.name server)) servers).
  { clear Hrun. induction Hstacks as [| server rest Hstack _ IH]; [reflexivity |].
    cbn [flat_map map]. unfold exits at 1. rewrite Hstack, IH. reflexivity. }
  rewrite Hevents. split; [| split; [reflexivity |]].
  - unfold releases. clear. induction servers as [| server rest IH]; [reflexivity |].
    cbn. exact IH.
  - exists (map (fun server => state_of (MCPServer.cleanup server)) servers).
    split; [reflexivity |].
    apply Forall_forall. intros closed Hin. apply in_map_iff in Hin.
    destruct Hin as [server [Hclosed Hin]]. subst closed.
    rewrite Forall_forall in Hstacks. specialize (Hstacks server Hin).
    rewrite cleanup_full.
    assert (Hquiet : outcome_of (MCPServer.exit_stack_aclose server) = Ok tt).
    { apply exit_stack_aclose_quiet. rewrite Hstacks. intros cb exc []. }
    rewrite Hquiet. reflexivity.
Qed.

Lemma shutdown_after_startup_releases_nothing_witness :
  events_of (Main.shutdown
               [block_server Samples.world ("weather", Samples.weather_config)] tt)
  = [CleanupCalled "weather"].
Proof.
  exact (proj1 (proj2 (shutdown_after_startup_releases_nothing Samples.world
                         "mcp_config.json" (Some ".env")
                         [block_server Samples.world ("weather", Samples.weather_config)]
                         eq_refl))).
Defined.

(* ================================================================== *)
(** * More on the chat loop *)
(* ================================================================== *)

Section ChatRounds.

Variable w : World.

Lemma add_messages_nil p : add_messages p [] = p.
Proof. destruct p as [history requests]. unfold add_messages. cbn. rewrite app_nil_r. reflexivity. Qed.

Lemma add_messages_app p a b : add_messages (add_messages p a) b = add_messages p (a ++ b).
Proof. unfold add_messages. cbn. rewrite app_assoc. reflexivity. Qed.

(** One round of tool calls, with a tool list. *)
Lemma for_tool_call_run tools tool_calls :
  forall p,
    Chat.for_tool_call w (Some tools) tool_calls p =
      (Ok tt, add_messages p (round_entries tools tool_calls), []).
Proof.
  induction tool_calls as [| tool_call rest IH]; intros p.
  - cbn. rewrite add_messages_nil. reflexivity.
  - cbn [Chat.for_tool_call round_entries flat_map]. run_chat.
    rewrite for_tool_in_tools_run, IH.
    fold (add_messages p (map (fun _ => no_execute_tool) (named_like tool_call tools))).
    rewrite add_messages_app. reflexivity.
Qed.

(** The first request of a call. *)
Lemma get_llm_response_first_request fuel llm_client user_input tools p :
  let asked := Chat.message_history p ++ [user_message user_input] in
  let waiting := {| Chat.message_history := asked;
                    Chat.llm_requests := S (Chat.llm_requests p) |} in
  Chat.get_llm_response w fuel llm_client user_input tools p =
    match llm_client (Chat.llm_requests p) asked tools with
    | Raises e => (Raised e, waiting, [Chat.LLMRequest asked])
    | Returns llm_response =>
        let '(o, s, t) :=
          Chat.while_tool_calls w fuel llm_client tools llm_response
            (add_messages waiting [assistant_message llm_response]) in
        (o, s, Chat.LLMRequest asked :: t)
    end.
Proof.
  intros asked waiting. unfold Chat.get_llm_response. run_chat.
  cbn [Chat.message_history Chat.llm_requests].
  fold (user_message user_input). fold asked.
  destruct (llm_client (Chat.llm_requests p) asked tools) as [llm_response | e]; run_chat.
  - cbn [Chat.message_history Chat.llm_requests].
    fold (assistant_message llm_response).
    unfold add_messages, waiting. cbn [Chat.message_history Chat.llm_requests].
    destruct (Chat.while_tool_calls _ _ _ _ _ _) as [[o s] t]. reflexivity.
  - reflexivity.
Qed.

(** The loop on a response without tool calls. *)
Lemma while_tool_calls_done fuel llm_client tools llm_response p :
  LLMResponse.tool_calls llm_response = None \/ LLMResponse.tool_calls llm_response = Some [] ->
  Chat.while_tool_calls w fuel llm_client tools llm_response p =
    (Ok (LLMResponse.content llm_response), p, []).
Proof.
  intros [Hd | Hd]; destruct fuel; cbn [Chat.while_tool_calls]; rewrite Hd; reflexivity.
Qed.

(** One pass of the loop, with a tool list. *)
Lemma while_tool_calls_step fuel llm_client tools llm_response tool_call more p :
  LLMResponse.tool_calls llm_response = Some (tool_call :: more) ->
  let p1 := add_messages p (round_entries tools (tool_call :: more)) in
  let waiting := {| Chat.message_history := Chat.message_history p1;
                    Chat.llm_requests := S (Chat.llm_requests p1) |} in
  Chat.while_tool_calls w (S fuel) llm_client (Some tools) llm_response p =
    match llm_client (Chat.llm_requests p1) (Chat.message_history p1) (Some tools) with
    | Raises e => (Raised e, waiting, [Chat.LLMRequest (Chat.message_history p1)])
    | Returns next =>
        let '(o, s, t) :=
          Chat.while_tool_calls w fuel llm_client (Some tools) next
            (add_messages waiting [assistant_message next]) in
        (o, s, Chat.LLMRequest (Chat.message_history p1) :: t)
    end.
Proof.
  intros Hcalls p1 waiting. cbn [Chat.while_tool_calls]. rewrite Hcalls.
  unfold bind at 1. rewrite for_tool_call_run. fold p1. run_chat.
  destruct (llm_client (Chat.llm_requests p1) (Chat.message_history p1) (Some tools))
    as [next | e]; run_chat.
  - cbn [Chat.message_history Chat.llm_requests]. fold (assistant_message next).
    unfold add_messages, waiting. cbn [Chat.message_history Chat.llm_requests].
    destruct (Chat.while_tool_calls _ _ _ _ _ _) as [[o s] t]. reflexivity.
  - reflexivity.
Qed.

(** A model that asks for a tool at every request keeps the loop going
    for as long as there is fuel. *)
Lemma while_tool_calls_restless llm_client tools :
  (forall n messages, exists next tool_call more,
      llm_client n messages (Some tools) = Returns next /\
      LLMResponse.tool_calls next = Some (tool_call :: more)) ->
  forall fuel llm_response tool_call more p,
    LLMResponse.tool_calls llm_response = Some (tool_call :: more) ->
    outcome_of (Chat.while_tool_calls w fuel llm_client (Some tools) llm_response p) = Diverged /\
    Chat.llm_requests
      (state_of (Chat.while_tool_calls w fuel llm_client (Some tools) llm_response p)) =
      (Chat.llm_requests p + fuel)%nat.
Proof.
  intros Hrestless.
  induction fuel as [| fuel IH]; intros llm_response tool_call more p Hcalls.
  - cbn [Chat.while_tool_calls]. rewrite Hcalls. cbn. auto with arith.
  - rewrite (while_tool_calls_step fuel llm_client tools llm_response tool_call more p Hcalls).
    cbv zeta.
    set (p1 := add_messages p (round_entries tools (tool_call :: more))).
    destruct (Hrestless (Chat.llm_requests p1) (Chat.message_history p1))
      as [next [tool_call' [more' [Hnext Hcalls']]]].
    rewrite Hnext.
    match goal with
    | |- context [Chat.while_tool_calls w fuel llm_client (Some tools) next ?p2] =>
        destruct (IH next tool_call' more' p2 Hcalls') as [Ho Hr];
        destruct (Chat.while_tool_calls w fuel llm_client (Some tools) next p2) as [[o s] t]
    end.
    unfold outcome_of, state_of in *. cbn [fst snd] in *.
    split; [exact Ho |]. rewrite Hr. cbn. lia.
Qed.

End ChatRounds.

(** X11. A model that answers without tool calls ([None] or an empty
    list): [get_llm_response] returns the content of the answer after
    exactly one request, whatever the fuel and the tool list, and the
    history grows by the user message and the assistant message. *)
Theorem get_llm_response_plain_answer :
  forall (w : World) (fuel : nat) (llm_client : Chat.LLMClient) (user_input : string)
         (tools : option (list Tool.t)) (p : Chat.process) (answer : LLMResponse.t),
    let asked := Chat.message_history p ++ [user_message user_input] in
    llm_client (Chat.llm_requests p) asked tools = Returns answer ->
    LLMResponse.tool_calls answer = None \/ LLMResponse.tool_calls answer = Some [] ->
    Chat.get_llm_response w fuel llm_client user_input tools p =
      (Ok (LLMResponse.content answer),
       {| Chat.message_history := asked ++ [assistant_message answer];
          Chat.llm_requests := S (Chat.llm_requests p) |},
       [Chat.LLMRequest asked]).
Proof.
  intros w fuel llm_client user_input tools p answer asked Hanswer Hdone.
  rewrite get_llm_response_first_request. cbv zeta. fold asked. rewrite Hanswer.
  rewrite (while_tool_calls_done w fuel llm_client tools answer _ Hdone). reflexivity.
Qed.

Lemma get_llm_response_plain_answer_witness :
  outcome_of
    (Chat.get_llm_response Samples.world 0 (Samples.plain_llm "Hello!") "Hi" None
       Samples.fresh_process)
  = Ok "Hello!".
Proof.
  exact (f_equal outcome_of
           (get_llm_response_plain_answer Samples.world 0 (Samples.plain_llm "Hello!") "Hi"
              None Samples.fresh_process (LLMResponse.mk "assistant" "Hello!" None)
              eq_refl (or_introl eq_refl))).
Defined.

(** X12. When the first request to the model fails, the failure goes to
    the caller, and the user message of the failed turn stays in the
    history: the next turn sends it again. *)
Theorem get_llm_response_model_failure :
  forall (w : World) (fuel : nat) (llm_client : Chat.LLMClient) (user_input : string)
         (tools : option (list Tool.t)) (p : Chat.process) (e : exn),
    let asked := Chat.message_history p ++ [user_message user_input] in
    llm_client (Chat.llm_requests p) asked tools = Raises e ->
    Chat.get_llm_response w fuel llm_client user_input tools p =
      (Raised e,
       {| Chat.message_history := asked; Chat.llm_requests := S (Chat.llm_requests p) |},
       [Chat.LLMRequest asked]).
Proof.
  intros w fuel llm_client user_input tools p e asked Hfails.
  rewrite get_llm_response_first_request. cbv zeta. fold asked. rewrite Hfails. reflexivity.
Qed.

Lemma get_llm_response_model_failure_witness :
  Chat.message_history
    (state_of (Chat.get_llm_response Samples.world 3 MoreSamples.failing_llm "Hi" (Some [])
                 Samples.fresh_process))
  = Chat.message_history Samples.fresh_process ++ [user_message "Hi"].
Proof.
  exact (f_equal (fun run => Chat.message_history (state_of run))
           (get_llm_response_model_failure Samples.world 3 MoreSamples.failing_llm "Hi"
              (Some []) Samples.fresh_process
              (OtherError "ConnectError" "All connection attempts failed") eq_refl)).
Defined.

(** X13. A tool call that names no tool of the list is passed over: no
    error, no tool entry in the history, and the model is asked again
    with a history that ends on its own assistant message. *)
Theorem get_llm_response_unknown_tool :
  forall (w : World) (fuel : nat) (llm_client : Chat.LLMClient) (user_input : string)
         (tools : list Tool.t) (tool_call : ToolCall.t) (first final : LLMResponse.t)
         (p : Chat.process),
    let asked := Chat.message_history p ++ [user_message user_input] in
    let asked_again := asked ++ [assistant_message first] in
    llm_client (Chat.llm_requests p) asked (Some tools) = Returns first ->
    LLMResponse.tool_calls first = Some [tool_call] ->
    (forall tool, In tool tools -> Tool.name tool <> ToolCall.name tool_call) ->
    llm_client (S (Chat.llm_requests p)) asked_again (Some tools) = Returns final ->
    LLMResponse.tool_calls final = None \/ LLMResponse.tool_calls final = Some [] ->
    Chat.get_llm_response w (S fuel) llm_client user_input (Some tools) p =
      (Ok (LLMResponse.content final),
       {| Chat.message_history := asked_again ++ [assistant_message final];
          Chat.llm_requests := S (S (Chat.llm_requests p)) |},
       [Chat.LLMRequest asked; Chat.LLMRequest asked_again]).
Proof.
  intros w fuel llm_client user_input tools tool_call first final p asked asked_again
         Hfirst Hcalls Hunknown Hfinal Hdone.
  assert (Hnone : named_like tool_call tools = []).
  { unfold named_like. clear - Hunknown.
    induction tools as [| tool rest IH]; [reflexivity |].
    cbn. destruct (Tool.name tool =? ToolCall.name tool_call) eqn:Hname.
    - apply String.eqb_eq in Hname. exfalso.
      exact (Hunknown tool (or_introl eq_refl) Hname).
    - apply IH. intros t Hin. apply Hunknown. right. exact Hin. }
  rewrite (get_llm_response_one_round w fuel llm_client user_input tools tool_call
             first final p); rewrite ?Hnone; auto.
Qed.

Lemma get_llm_response_unknown_tool_witness :
  Chat.message_history
    (state_of (Chat.get_llm_response Samples.world 1 Samples.weather_llm "Weather?"
                 (Some [Samples.test_tool]) Samples.fresh_process))
  = Chat.message_history Samples.fresh_process ++
    [user_message "Weather?";
     {| Chat.role := "assistant"; Chat.content := VStr "" |};
     {| Chat.role := "assistant"; Chat.content := VStr "It is 22C in Paris." |}].
Proof.
  assert (Hunknown : forall tool, In tool [Samples.test_tool] ->
                       Tool.name tool <> "get_weather").
  { intros tool [Ht | []]. rewrite <- Ht. discriminate. }
  exact (f_equal (fun run => Chat.message_history (state_of run))
           (get_llm_response_unknown_tool Samples.world 0 Samples.weather_llm "Weather?"
              [Samples.test_tool]
              (ToolCall.mk "get_weather" (JObj [("city", JStr "Paris")]))
              (LLMResponse.mk "assistant" ""
                 (Some [ToolCall.mk "get_weather" (JObj [("city", JStr "Paris")])]))
              (LLMResponse.mk "assistant" "It is 22C in Paris." None)
              Samples.fresh_process eq_refl eq_refl Hunknown eq_refl (or_introl eq_refl))).
Defined.

(** X14. A round of tool calls never raises and never asks the model.
    It adds one entry for every pair of a call and a tool of the list
    with the name that the call asks for, so a name that the list holds
    twice gives two entries for one call; and every entry it adds is the
    failed lookup of [execute_tool]. *)
Theorem tool_round_entries :
  forall (w : World) (tools : list Tool.t) (tool_calls : list ToolCall.t) (p : Chat.process),
    exists added,
      Chat.for_tool_call w (Some tools) tool_calls p = (Ok tt, add_messages p added, []) /\
      Forall (fun m => m = no_execute_tool) added /\
      length added =
        list_sum (map (fun tool_call => length (named_like tool_call tools)) tool_calls).
Proof.
  intros w tools tool_calls p. exists (round_entries tools tool_calls).
  split; [apply for_tool_call_run |].
  unfold round_entries. split.
  - apply Forall_forall. intros m Hin. apply in_flat_map in Hin.
    destruct Hin as [tool_call [_ Hin]]. apply in_map_iff in Hin.
    destruct Hin as [tool [Hm _]]. symmetry. exact Hm.
  - induction tool_calls as [| tool_call rest IH]; [reflexivity |].
    cbn [flat_map map list_sum fold_right]. rewrite length_app, length_map.
    unfold list_sum in IH. rewrite IH. reflexivity.
Qed.

(** X15. When the model asks for a tool and the caller passed no tool
    list ([tools=None], the default), the turn ends with a [TypeError]
    after the assistant message has been recorded; the model is not
    asked again. *)
Theorem get_llm_response_without_tool_list :
  forall (w : World) (fuel : nat) (llm_client : Chat.LLMClient) (user_input : string)
         (p : Chat.process) (first : LLMResponse.t) (tool_call : ToolCall.t)
         (more : list ToolCall.t),
    let asked := Chat.message_history p ++ [user_message user_input] in
    llm_client (Chat.llm_requests p) asked None = Returns first ->
    LLMResponse.tool_calls first = Some (tool_call :: more) ->
    Chat.get_llm_response w (S fuel) llm_client user_input None p =
      (Raised (TypeError "'NoneType' object is not iterable"),
       {| Chat.message_history := asked ++ [assistant_message first];
          Chat.llm_requests := S (Chat.llm_requests p) |},
       [Chat.LLMRequest asked]).
Proof.
  intros w fuel llm_client user_input p first tool_call more asked Hfirst Hcalls.
  rewrite get_llm_response_first_request. cbv zeta. fold asked. rewrite Hfirst.
  cbn [Chat.while_tool_calls]. rewrite Hcalls. reflexivity.
Qed.

Lemma get_llm_response_without_tool_list_witness :
  outcome_of
    (Chat.get_llm_response Samples.world 1 Samples.weather_llm "Weather?" None
       Samples.fresh_process)
  = Raised (TypeError "'NoneType' object is not iterable").
Proof.
  exact (f_equal outcome_of
           (get_llm_response_without_tool_list Samples.world 0 Samples.weather_llm "Weather?"
              Samples.fresh_process
              (LLMResponse.mk "assistant" ""
                 (Some [ToolCall.mk "get_weather" (JObj [("city", JStr "Paris")])]))
              (ToolCall.mk "get_weather" (JObj [("city", JStr "Paris")])) []
              eq_refl eq_refl)).
Defined.

(** X16. The loop has no bound of its own on the number of rounds.  With
    a model that asks for a tool at every request, no amount of fuel
    brings [get_llm_response] to an end: after [fuel] rounds it is still
    going, and it has asked the model [fuel + 1] times. *)
Theorem get_llm_response_unbounded_rounds :
  forall (w : World) (llm_client : Chat.LLMClient) (user_input : string)
         (tools : list Tool.t) (p : Chat.process),
    (forall n messages, exists next tool_call more,
        llm_client n messages (Some tools) = Returns next /\
        LLMResponse.tool_calls next = Some (tool_call :: more)) ->
    forall fuel,
      let run := Chat.get_llm_response w fuel llm_client user_input (Some tools) p in
      outcome_of run = Diverged /\
      Chat.llm_requests (state_of run) = (Chat.llm_requests p + S fuel)%nat.
Proof.
  intros w llm_client user_input tools p Hrestless fuel run. subst run.
  rewrite get_llm_response_first_request. cbv zeta.
  destruct (Hrestless (Chat.llm_requests p)
              (Chat.message_history p ++ [user_message user_input]))
    as [first [tool_call [more [Hfirst Hcalls]]]].
  rewrite Hfirst.
  match goal with
  | |- context [Chat.while_tool_calls w fuel llm_client (Some tools) first ?p1] =>
      destruct (while_tool_calls_restless w llm_client tools Hrestless fuel first
                  tool_call more p1 Hcalls) as [Ho Hr];
      destruct (Chat.while_tool_calls w fuel llm_client (Some tools) first p1) as [[o s] t]
  end.
  unfold outcome_of, state_of in *. cbn [fst snd] in *.
  split; [exact Ho |]. rewrite Hr. cbn. lia.
Qed.

Lemma get_llm_response_unbounded_rounds_witness :
  outcome_of
    (Chat.get_llm_response Samples.world 50 MoreSamples.restless_llm "Weather?"
       (Some [Samples.weather_tool]) Samples.fresh_process)
  = Diverged.
Proof.
  refine (proj1 (get_llm_response_unbounded_rounds Samples.world MoreSamples.restless_llm
                   "Weather?" [Samples.weather_tool] Samples.fresh_process _ 50%nat)).
  intros n messages.
  exists (LLMResponse.mk "assistant" ""
            (Some [ToolCall.mk "get_weather" (JObj [("city", JStr "Paris")])])),
         (ToolCall.mk "get_weather" (JObj [("city", JStr "Paris")])), [].
  split; reflexivity.
Defined.

(* ================================================================== *)
(** * Variables in the configuration (app/mcp/config.py) *)
(* ================================================================== *)

Section Variables_.

Lemma string_app_assoc (a b c : string) : ((a ++ b) ++ c = a ++ (b ++ c))%string.
Proof. induction a as [| x a IH]; cbn; [reflexivity | rewrite IH; reflexivity]. Qed.

Lemma string_length_app (a b : string) :
  String.length (a ++ b)%string = (String.length a + String.length b)%nat.
Proof. induction a as [| x a IH]; cbn; [reflexivity | rewrite IH; reflexivity]. Qed.

Lemma sub_step environ c rest :
  Config.sub environ 0 (String c rest) =
  match Config.match_here (String c rest) with
  | Some var_name =>
      (Config.replace environ var_name
       ++ Config.sub environ (String.length var_name + 2) rest)%string
  | None => String c (Config.sub environ 0 rest)
  end.
Proof. reflexivity. Qed.

Lemma references_step c rest :
  references 0 (String c rest) =
  match Config.match_here (String c rest) with
  | Some var_name => var_name :: references (String.length var_name + 2) rest
  | None => references 0 rest
  end.
Proof. reflexivity. Qed.

(** Passing over what a match has covered. *)
Lemma sub_skip environ (covered rest : string) :
  Config.sub environ (String.length covered) (covered ++ rest)%string =
  Config.sub environ 0 rest.
Proof. induction covered as [| c covered IH]; [reflexivity | exact IH]. Qed.

Lemma references_skip (covered rest : string) :
  references (String.length covered) (covered ++ rest)%string = references 0 rest.
Proof. induction covered as [| c covered IH]; [reflexivity | exact IH]. Qed.

Lemma match_name_some s name :
  Config.match_name s = Some name ->
  exists rest, s = (name ++ String "}" rest)%string.
Proof.
  revert name. induction s as [| c s IH]; intros name Hm; [discriminate |].
  cbn in Hm. destruct (Ascii.eqb c "}") eqn:Hc.
  - injection Hm as Hname. subst name. apply Ascii.eqb_eq in Hc. subst c.
    exists s. reflexivity.
  - destruct (Config.match_name s) as [name' |]; [| discriminate].
    injection Hm as Hname. subst name.
    destruct (IH name' eq_refl) as [rest Hrest]. exists rest. cbn. rewrite Hrest at 1.
    reflexivity.
Qed.

Lemma match_name_reference name rest :
  has_char "}" name = false ->
  Config.match_name (name ++ String "}" rest)%string = Some name.
Proof.
  induction name as [| c name IH]; intros Hclean.
  - reflexivity.
  - cbn in Hclean. apply orb_false_iff in Hclean. destruct Hclean as [Hc Hclean].
    cbn. rewrite Hc, (IH Hclean). reflexivity.
Qed.

(** A match at the start of a string is a reference that stands there. *)
Lemma match_here_some s name :
  Config.match_here s = Some name ->
  exists rest, s = ("${" ++ name ++ String "}" rest)%string.
Proof.
  intros Hm. destruct s as [| c1 [| c2 s]]; try discriminate.
  cbn in Hm.
  destruct (Ascii.eqb c1 "$") eqn:H1; [| discriminate].
  destruct (Ascii.eqb c2 "{") eqn:H2; [| discriminate].
  cbn in Hm. apply Ascii.eqb_eq in H1, H2. subst c1 c2.
  destruct (Config.match_name s) as [[| c name'] |] eqn:Hn; try discriminate.
  injection Hm as Hname. subst name.
  destruct (match_name_some s _ Hn) as [rest Hrest]. exists rest. rewrite Hrest. reflexivity.
Qed.

Lemma match_here_reference name rest :
  name <> EmptyString ->
  has_char "}" name = false ->
  Config.match_here ("${" ++ name ++ String "}" rest)%string = Some name.
Proof.
  intros Hname Hclean. cbn. rewrite (match_name_reference name rest Hclean).
  destruct name; [contradiction | reflexivity].
Qed.

Lemma match_here_not_dollar c rest :
  Ascii.eqb c "$" = false -> Config.match_here (String c rest) = None.
Proof. intros Hc. destruct rest; cbn; [reflexivity | rewrite Hc; reflexivity]. Qed.

(** A reference in front: it is replaced, and the search goes on
    behind its closing brace. *)
Lemma sub_reference environ name rest :
  name <> EmptyString ->
  has_char "}" name = false ->
  Config.sub environ 0 ("${" ++ name ++ String "}" rest)%string =
  (Config.replace environ name ++ Config.sub environ 0 rest)%string.
Proof.
  intros Hname Hclean.
  pose proof (match_here_reference name rest Hname Hclean) as Hm.
  change ("${" ++ name ++ String "}" rest)%string
    with (String "$" (String "{" (name ++ String "}" rest)))%string in *.
  rewrite sub_step, Hm. f_equal.
  replace (String "{" (name ++ String "}" rest))%string
    with (("{" ++ name ++ "}") ++ rest)%string.
  - replace (String.length name + 2)%nat with (String.length ("{" ++ name ++ "}")%string).
    + exact (sub_skip environ ("{" ++ name ++ "}")%string rest).
    + cbn. rewrite string_length_app. cbn. lia.
  - cbn. rewrite string_app_assoc. reflexivity.
Qed.

(** With every referenced variable unset, nothing changes. *)
Lemma sub_unset environ n :
  forall value,
    (String.length value <= n)%nat ->
    Forall (fun name => Config.getenv environ name = None) (references 0 value) ->
    Config.sub environ 0 value = value.
Proof.
  induction n as [| n IH]; intros value Hlen Hunset.
  - destruct value; [reflexivity | cbn in Hlen; lia].
  - destruct value as [| c rest]; [reflexivity |].
    rewrite references_step in Hunset. rewrite sub_step.
    destruct (Config.match_here (String c rest)) as [name |] eqn:Hm.
    + destruct (match_here_some _ _ Hm) as [after Hafter].
      change ("${" ++ name ++ String "}" after)%string
        with (String "$" (String "{" (name ++ String "}" after)))%string in Hafter.
      injection Hafter as Hc Hrest. subst c.
      assert (Hcovered : rest = (("{" ++ name ++ "}") ++ after)%string).
      { rewrite Hrest. cbn. rewrite string_app_assoc. reflexivity. }
      assert (Hskip : (String.length name + 2)%nat =
                      String.length ("{" ++ name ++ "}")%string).
      { cbn. rewrite string_length_app. cbn. lia. }
      rewrite Hskip, Hcovered in Hunset |- *.
      rewrite (references_skip ("{" ++ name ++ "}")%string after) in Hunset.
      rewrite (sub_skip environ ("{" ++ name ++ "}")%string after).
      inversion Hunset as [| name' names Hname Hrest']. subst.
      unfold Config.replace. rewrite Hname.
      rewrite IH; [| | exact Hrest'].
      * cbn. rewrite !string_app_assoc. reflexivity.
      * rewrite Hcovered in Hlen. cbn [String.length] in Hlen.
        rewrite string_length_app in Hlen. lia.
    + rewrite IH; [reflexivity | cbn in Hlen; lia | exact Hunset].
Qed.

End Variables_.

Lemma sub_prefix environ (prefix value : string) :
  has_char "$" prefix = false ->
  Config.sub environ 0 (prefix ++ value)%string = (prefix ++ Config.sub environ 0 value)%string.
Proof.
  induction prefix as [| c prefix IH]; intros Hclean; [reflexivity |].
  cbn in Hclean. apply orb_false_iff in Hclean. destruct Hclean as [Hc Hclean].
  change (String c prefix ++ value)%string with (String c (prefix ++ value)%string).
  rewrite sub_step, (match_here_not_dollar c _ Hc), (IH Hclean). reflexivity.
Qed.

(** Induction on JSON values, with the hypothesis for the members of
    lists and objects. *)
Lemma json_induction (P : json -> Prop) :
  P JNull ->
  (forall b, P (JBool b)) ->
  (forall z, P (JNum z)) ->
  (forall s, P (JStr s)) ->
  (forall items, Forall P items -> P (JArr items)) ->
  (forall fields, Forall (fun kv => P (snd kv)) fields -> P (JObj fields)) ->
  forall j, P j.
Proof.
  intros HN HB HZ HS HA HO.
  fix IH 1. intros [| b | z | s | items | fields].
  - exact HN.
  - apply HB.
  - apply HZ.
  - apply HS.
  - apply HA.
    exact ((fix members (l : list json) : Forall P l :=
              match l with
              | [] => Forall_nil P
              | x :: rest => Forall_cons x (IH x) (members rest)
              end) items).
  - apply HO.
    exact ((fix members (l : list (string * json)) : Forall (fun kv => P (snd kv)) l :=
              match l with
              | [] => Forall_nil _
              | kv :: rest => Forall_cons kv (IH (snd kv)) (members rest)
              end) fields).
Qed.

(** X17. Variables that are not set are left as they are written: when
    none of the variables that a string refers to is in the environment,
    [_replace_variables] gives the string back unchanged. *)
Theorem replace_variables_unset :
  forall (self : Config.t) (environ : list (string * string)) (value : string),
    Forall (fun name => Config.getenv environ name = None) (references 0 value) ->
    Config._replace_variables self environ value = value.
Proof.
  intros self environ value Hunset. unfold Config._replace_variables.
  destruct (Config.use_env self); [| reflexivity].
  apply (sub_unset environ (String.length value)); [apply Nat.le_refl | exact Hunset].
Qed.

Lemma replace_variables_unset_witness :
  Config._replace_variables (Config.mk "test_config.json" (Some ".env") JNull true)
    [("TEST_VAR", "test_value")] "--root=${OTHER_VAR}/data"
  = "--root=${OTHER_VAR}/data".
Proof.
  exact (replace_variables_unset (Config.mk "test_config.json" (Some ".env") JNull true)
           [("TEST_VAR", "test_value")] "--root=${OTHER_VAR}/data"
           (Forall_cons "OTHER_VAR" eq_refl (Forall_nil _))).
Defined.

(** X18. How a reference is replaced.  With an env file in use, text
    without a dollar sign in front of a reference is kept, the reference
    [${name}] becomes the value of the variable (or stays, when the
    variable is not set), and the search goes on behind the closing
    brace: what was put in is not searched again. *)
Theorem replace_variables_reference :
  forall (self : Config.t) (environ : list (string * string)) (prefix name rest : string),
    Config.use_env self = true ->
    has_char "$" prefix = false ->
    name <> EmptyString ->
    has_char "}" name = false ->
    Config._replace_variables self environ (prefix ++ "${" ++ name ++ String "}" rest)%string =
      (prefix ++ Config.replace environ name ++ Config._replace_variables self environ rest)%string.
Proof.
  intros self environ prefix name rest Huse Hprefix Hname Hclean.
  unfold Config._replace_variables. rewrite Huse.
  rewrite (sub_prefix environ prefix _ Hprefix).
  rewrite (sub_reference environ name rest Hname Hclean). reflexivity.
Qed.

Lemma replace_variables_reference_witness :
  Config._replace_variables (Config.mk "test_config.json" (Some ".env") JNull true)
    [("TEST_VAR", "${OTHER_VAR}"); ("OTHER_VAR", "other_value")] "--root=${TEST_VAR}/data"
  = "--root=${OTHER_VAR}/data".
Proof.
  assert (Hname : "TEST_VAR" <> EmptyString) by discriminate.
  exact (replace_variables_reference
           (Config.mk "test_config.json" (Some ".env") JNull true)
           [("TEST_VAR", "${OTHER_VAR}"); ("OTHER_VAR", "other_value")]
           "--root=" "TEST_VAR" "/data" eq_refl eq_refl Hname eq_refl).
Defined.

(** X19. [_substitute_variables] changes the text of strings and nothing
    else: the result has the same types, the same keys in the same
    order and the same lengths as the configuration it was given.  Keys
    are not searched for references. *)
Theorem substitute_variables_keeps_shape :
  forall (self : Config.t) (environ : list (string * string)) (config : json),
    shape (Config._substitute_variables self environ config) = shape config.
Proof.
  intros self environ. unfold Config._substitute_variables.
  apply json_induction; try reflexivity.
  - intros items IH. cbn. f_equal. rewrite map_map.
    induction IH as [| j rest Hj _ IHrest]; [reflexivity |].
    cbn. rewrite Hj, IHrest. reflexivity.
  - intros fields IH. cbn. f_equal. rewrite map_map.
    induction IH as [| [k v] rest Hv _ IHrest]; [reflexivity |].
    cbn in *. rewrite Hv, IHrest. reflexivity.
Qed.

Lemma substitute_without_env (self : Config.t) (environ : list (string * string)) :
  Config.use_env self = false ->
  forall config, Config.substitute self environ config = config.
Proof.
  intros Huse. apply json_induction; try reflexivity.
  - intros s. cbn. unfold Config._replace_variables. rewrite Huse. reflexivity.
  - intros items IH. cbn. f_equal.
    induction IH as [| j rest Hj _ IHrest]; [reflexivity |].
    cbn. rewrite Hj, IHrest. reflexivity.
  - intros fields IH. cbn. f_equal.
    induction IH as [| [k v] rest Hv _ IHrest]; [reflexivity |].
    cbn in *. rewrite Hv, IHrest. reflexivity.
Qed.

(** X20. A [Config] made without an env file, or with the path of one
    that does not exist, leaves the environment of the process as it
    is, and hands out every server entry exactly as the file has it,
    whatever the environment holds: references are not replaced.  A
    missing ["mcpServers"] key or server name is a [KeyError]. *)
Theorem config_without_env_file :
  forall (files : Config.Files) (config_path : string) (env_path : option string)
         (environ : list (string * string)) (config : Config.t),
    (forall path, env_path = Some path -> Config.path_exists files path = false) ->
    outcome_of (Config.__init__ files config_path env_path environ) = Ok config ->
    state_of (Config.__init__ files config_path env_path environ) = environ /\
    Config.json_load files config_path = Returns (Config.raw_config config) /\
    forall later server_name,
      Config.get_server_config config later server_name =
        Py.and_then (Py.getitem (Config.raw_config config) "mcpServers")
                    (fun servers => Py.getitem servers server_name).
Proof.
  intros files config_path env_path environ config Habsent Hrun.
  assert (Hinit : Config.__init__ files config_path env_path environ =
                  ((match Config.json_load files config_path with
                    | Returns raw =>
                        match Py.len raw with
                        | Returns _ =>
                            Ok (Config.mk config_path
                                  (match env_path with
                                   | Some EmptyString => None
                                   | other => other
                                   end) raw false)
                        | Raises e => Raised e
                        end
                    | Raises e => Raised e
                    end), environ, [])).
  { unfold Config.__init__.
    destruct env_path as [[| c path] |]; run_monad.
    - destruct (Config.json_load files config_path) as [raw | e]; run_monad;
        [destruct (Py.len raw) |]; reflexivity.
    - rewrite (Habsent (String c path) eq_refl). run_monad.
      destruct (Config.json_load files config_path) as [raw | e]; run_monad;
        [destruct (Py.len raw) |]; reflexivity.
    - destruct (Config.json_load files config_path) as [raw | e]; run_monad;
        [destruct (Py.len raw) |]; reflexivity. }
  rewrite Hinit in Hrun |- *. unfold outcome_of, state_of in *. cbn [fst snd] in *.
  split; [reflexivity |].
  destruct (Config.json_load files config_path) as [raw | e]; [| discriminate Hrun].
  destruct (Py.len raw) as [n | e]; [| discriminate Hrun].
  injection Hrun as Hconfig. subst config. cbn [Config.raw_config].
  split; [reflexivity |].
  intros later server_name. unfold Config.get_server_config, Config._substitute_variables.
  cbn [Config.raw_config].
  destruct (Py.getitem raw "mcpServers") as [servers | e]; [| reflexivity].
  cbn [Py.and_then].
  destruct (Py.getitem servers server_name) as [entry | e]; [| reflexivity].
  cbn [Py.and_then]. rewrite substitute_without_env; reflexivity.
Qed.

Lemma config_without_env_file_witness :
  exists config,
    outcome_of (Config.__init__ MoreSamples.test_files "test_config.json" None
                  [("TEST_VAR", "test_value")]) = Ok config /\
    Config.get_server_config config [("TEST_VAR", "test_value")] "test-server" =
      Returns (JObj [("command", JStr "test");
                     ("args", JArr [JStr "${TEST_VAR}"; JStr "${OTHER_VAR}"])]) /\
    Config.get_server_config config [("TEST_VAR", "test_value")] "nonexistent-server" =
      Raises (KeyError "nonexistent-server").
Proof.
  exists (Config.mk "test_config.json" None MoreSamples.test_raw_config false).
  assert (Habsent : forall path, @None string = Some path ->
                      Config.path_exists MoreSamples.test_files path = false)
    by (intros path Hpath; discriminate Hpath).
  pose proof (config_without_env_file MoreSamples.test_files "test_config.json" None
                [("TEST_VAR", "test_value")]
                (Config.mk "test_config.json" None MoreSamples.test_raw_config false)
                Habsent eq_refl) as H.
  destruct H as [_ [_ Hget]].
  split; [reflexivity |]. split.
  - rewrite Hget. reflexivity.
  - rewrite Hget. reflexivity.
Defined.

(* ================================================================== *)
(** * Reading the answer of the model (app/llm/ollama.py) *)
(* ================================================================== *)

Section Formatting.

(** A comprehension that went through has formatted every item. *)
Lemma for_each_returns (A B : Type) (f : A -> outcome B) (items : list A) :
  forall formatted,
    Py.for_each f items = Returns formatted ->
    Forall2 (fun item b => f item = Returns b) items formatted.
Proof.
  induction items as [| item rest IH]; intros formatted Hrun; cbn in Hrun.
  - injection Hrun as Hf. subst formatted. constructor.
  - destruct (f item) as [b | e] eqn:Hitem; [| discriminate Hrun]. cbn in Hrun.
    destruct (Py.for_each f rest) as [bs | e]; [| discriminate Hrun]. cbn in Hrun.
    injection Hrun as Hf. subst formatted. constructor; [exact Hitem | apply IH; reflexivity].
Qed.

Lemma for_each_encoded (calls : list ToolCall.t) :
  Py.for_each OllamaClient._format_tool_call
    (map (fun c => JObj [("function",
                          JObj [("name", JStr (ToolCall.name c));
                                ("arguments", ToolCall.arguments c)])]) calls)
  = Returns (map OllamaClient.tool_call_of calls).
Proof.
  induction calls as [| c rest IH]; [reflexivity |].
  cbn [map Py.for_each]. rewrite IH. reflexivity.
Qed.

End Formatting.

(** X21. [_format_response] reads back what the model said.  For the
    message that the Ollama API sends for an answer with a content and,
    possibly, tool calls, it returns the role ["assistant"], that
    content, and the calls with their names and arguments in the same
    order; a message without a ["tool_calls"] key gives no call list. *)
Theorem format_response_reads_message :
  forall (content : string) (calls : option (list ToolCall.t)),
    OllamaClient._format_response
      (JObj [("model", JStr "llama3.1");
             ("message", OllamaClient.message_of content calls);
             ("done", JBool true)])
    = Returns {| OllamaClient.response_role := JStr "assistant";
                 OllamaClient.response_content := JStr content;
                 OllamaClient.response_tool_calls :=
                   option_map (map OllamaClient.tool_call_of) calls |}.
Proof.
  intros content [calls |].
  - unfold OllamaClient._format_response, OllamaClient.message_of.
    cbn -[Py.for_each OllamaClient._format_tool_call].
    rewrite for_each_encoded. reflexivity.
  - reflexivity.
Qed.

(** X22. [_format_response] returns nothing but answers of the
    assistant: when it returns, the role of the response is
    ["assistant"], and the response it read had a ["message"] object
    with that role. *)
Theorem format_response_role :
  forall (response : json) (r : OllamaClient.llm_response),
    OllamaClient._format_response response = Returns r ->
    OllamaClient.response_role r = JStr "assistant" /\
    exists message,
      Py.get response "message" (JObj []) = Returns message /\
      Py.getitem message "role" = Returns (JStr "assistant").
Proof.
  intros response r Hrun. unfold OllamaClient._format_response in Hrun.
  destruct (Py.get response "message" (JObj [])) as [message | e] eqn:Hmessage;
    [| discriminate Hrun].
  cbn [Py.and_then] in Hrun.
  destruct (Py.keys message) as [message_keys | e]; [| discriminate Hrun].
  cbn [Py.and_then] in Hrun.
  destruct (negb (existsb (String.eqb "role") message_keys)); [discriminate Hrun |].
  destruct (Py.getitem message "role") as [role | e] eqn:Hrole; [| discriminate Hrun].
  cbn [Py.and_then] in Hrun.
  destruct (Py.is_str "assistant" role) eqn:Hassistant; [| discriminate Hrun].
  cbn [negb] in Hrun.
  assert (Hr : role = JStr "assistant").
  { destruct role; try discriminate Hassistant. cbn in Hassistant.
    apply String.eqb_eq in Hassistant. subst s. reflexivity. }
  subst role.
  destruct (Py.contains "tool_calls" message) as [has | e]; [| discriminate Hrun].
  cbn [Py.and_then] in Hrun.
  match type of Hrun with
  | Py.and_then ?step _ = _ => destruct step as [tool_calls | e]; [| discriminate Hrun]
  end.
  cbn [Py.and_then] in Hrun.
  destruct (Py.get message "content" (JStr "")) as [content | e]; [| discriminate Hrun].
  cbn [Py.and_then] in Hrun. injection Hrun as Hr. subst r.
  split; [reflexivity |]. exists message. split; [reflexivity | exact Hrole].
Qed.

Lemma format_response_role_witness :
  exists r,
    OllamaClient._format_response
      (JObj [("message", OllamaClient.message_of "Hello!" None)]) = Returns r /\
    OllamaClient.response_role r = JStr "assistant".
Proof.
  exists {| OllamaClient.response_role := JStr "assistant";
            OllamaClient.response_content := JStr "Hello!";
            OllamaClient.response_tool_calls := None |}.
  split; [reflexivity |].
  exact (proj1 (format_response_role
                  (JObj [("message", OllamaClient.message_of "Hello!" None)]) _ eq_refl)).
Defined.

(** X23. The tool calls of a response are read all or not at all: when
    [_format_response] returns a call list, the message had a
    ["tool_calls"] entry, and every item of it was formatted, one call
    for one item in the same order.  One item that cannot be formatted
    makes the whole response fail. *)
Theorem format_response_all_tool_calls :
  forall (response : json) (r : OllamaClient.llm_response)
         (formatted : list OllamaClient.tool_call),
    OllamaClient._format_response response = Returns r ->
    OllamaClient.response_tool_calls r = Some formatted ->
    exists message listed calls,
      Py.get response "message" (JObj []) = Returns message /\
      Py.getitem message "tool_calls" = Returns listed /\
      Py.iterate listed = Returns calls /\
      Forall2 (fun call c => OllamaClient._format_tool_call call = Returns c) calls formatted.
Proof.
  intros response r formatted Hrun Hcalls. unfold OllamaClient._format_response in Hrun.
  destruct (Py.get response "message" (JObj [])) as [message | e] eqn:Hmessage;
    [| discriminate Hrun].
  cbn [Py.and_then] in Hrun.
  destruct (Py.keys message) as [message_keys | e]; [| discriminate Hrun].
  cbn [Py.and_then] in Hrun.
  destruct (negb (existsb (String.eqb "role") message_keys)); [discriminate Hrun |].
  destruct (Py.getitem message "role") as [role | e]; [| discriminate Hrun].
  cbn [Py.and_then] in Hrun.
  destruct (negb (Py.is_str "assistant" role)); [discriminate Hrun |].
  destruct (Py.contains "tool_calls" message) as [has | e]; [| discriminate Hrun].
  cbn [Py.and_then] in Hrun.
  destruct has.
  - destruct (Py.getitem message "tool_calls") as [listed | e] eqn:Hlisted;
      [| discriminate Hrun].
    cbn [Py.and_then] in Hrun.
    destruct (Py.iterate listed) as [calls | e] eqn:Hiterate; [| discriminate Hrun].
    cbn [Py.and_then] in Hrun.
    destruct (Py.for_each OllamaClient._format_tool_call calls) as [done | e] eqn:Hdone;
      [| discriminate Hrun].
    cbn [Py.and_then] in Hrun.
    destruct (Py.get message "content" (JStr "")) as [content | e]; [| discriminate Hrun].
    cbn [Py.and_then] in Hrun. injection Hrun as Hr. subst r.
    cbn in Hcalls. injection Hcalls as Hf. subst formatted.
    exists message, listed, calls.
    split; [reflexivity |]. split; [exact Hlisted |]. split; [exact Hiterate |].
    apply for_each_returns. exact Hdone.
  - cbn [Py.and_then] in Hrun.
    destruct (Py.get message "content" (JStr "")) as [content | e]; [| discriminate Hrun].
    cbn [Py.and_then] in Hrun. injection Hrun as Hr. subst r. discriminate Hcalls.
Qed.

Lemma format_response_all_tool_calls_witness :
  OllamaClient._format_response
    (JObj [("message",
            JObj [("role", JStr "assistant");
                  ("tool_calls",
                   JArr [JObj [("function", JObj [("name", JStr "get_weather")])];
                         JObj [("name", JStr "get_time")]])])])
  = Raises (ValueError "Invalid tool call format, missing 'function' or 'name'.") /\
  exists calls,
    Forall2 (fun call c => OllamaClient._format_tool_call call = Returns c) calls
      [OllamaClient.tool_call_of (ToolCall.mk "get_weather" (JObj []))].
Proof.
  split; [reflexivity |].
  destruct (format_response_all_tool_calls
              (JObj [("message",
                      JObj [("role", JStr "assistant");
                            ("tool_calls",
                             JArr [JObj [("function",
                                          JObj [("name", JStr "get_weather")])]])])])
              _ _ eq_refl eq_refl) as [message [listed [calls [_ [_ [_ Hall]]]]]].
  exists calls. exact Hall.
Defined.

(** X24. A tool call of the model is a dict with a ["function"] dict
    that has a ["name"].  Without ["function"], or without ["name"] in
    it, [_format_tool_call] raises its [ValueError]; otherwise it takes
    the name and the arguments as they are, and an empty dict when there
    are no arguments. *)
Theorem format_tool_call_of_dict :
  forall (fields : list (string * json)),
    let run := OllamaClient._format_tool_call (JObj fields) in
    let invalid := Raises (ValueError "Invalid tool call format, missing 'function' or 'name'.") in
    (Py.dict_get "function" fields = None -> run = invalid) /\
    (forall function,
       Py.dict_get "function" fields = Some (JObj function) ->
       run = match Py.dict_get "name" function with
             | None => invalid
             | Some name =>
                 Returns {| OllamaClient.call_name := name;
                            OllamaClient.call_arguments :=
                              match Py.dict_get "arguments" function with
                              | Some arguments => arguments
                              | None => JObj []
                              end |}
             end).
Proof.
  intros fields run invalid. subst run invalid. unfold OllamaClient._format_tool_call.
  split.
  - intros Hnone. cbn. rewrite Hnone. reflexivity.
  - intros function Hfunction. cbn. rewrite Hfunction. cbn.
    destruct (Py.dict_get "name" function) as [name |]; reflexivity.
Qed.

Lemma format_tool_call_of_dict_witness :
  OllamaClient._format_tool_call (JObj [("function", JObj [("name", JStr "get_weather")])])
  = Returns {| OllamaClient.call_name := JStr "get_weather";
               OllamaClient.call_arguments := JObj [] |}.
Proof.
  exact (proj2 (format_tool_call_of_dict [("function", JObj [("name", JStr "get_weather")])])
           [("name", JStr "get_weather")] eq_refl).
Defined.

(** X25. The tool list that is sent to the model keeps one entry for a
    tool, in the order of the list, and tells the tools apart: two tool
    lists that are formatted alike are the same list.  Without tools, or
    with an empty list, the request carries an empty list. *)
Theorem format_tools_faithful :
  forall tools1 tools2 : list Tool.t,
    length (OllamaClient._format_tools tools1) = length tools1 /\
    (OllamaClient._format_tools tools1 = OllamaClient._format_tools tools2 ->
     tools1 = tools2) /\
    OllamaClient.request_tools None = [] /\
    OllamaClient.request_tools (Some []) = [] /\
    (tools1 <> [] ->
     OllamaClient.request_tools (Some tools1) = OllamaClient._format_tools tools1).
Proof.
  intros tools1 tools2. unfold OllamaClient._format_tools.
  split; [apply length_map |]. split; [| split; [reflexivity | split; [reflexivity |]]].
  - revert tools2. induction tools1 as [| t1 rest1 IH]; intros [| t2 rest2] Heq;
      try discriminate Heq; [reflexivity |].
    cbn in Heq. injection Heq as Hname Hdescription Hschema Hrest.
    destruct t1 as [n1 d1 s1], t2 as [n2 d2 s2]. cbn in *. subst.
    f_equal. apply IH. exact Hrest.
  - intros Hnonempty. destruct tools1; [contradiction | reflexivity].
Qed.

(* ================================================================== *)
(** * The catalog *)
(* ================================================================== *)


